(** * TradeRecorder: the trade ledger of backtrader/analyzers/traderecorder.py

    A shallow embedding of the [TradeRecorder] analyzer: [create_analysis],
    [notify_trade] and [stop], with the Python object as an explicit state,
    exceptions as a result value, and the printed diagnostic as a list of
    lines.

    Conventions of the embedding.
    - The class is embedded twice.  The first embedding ([Trade.t], [run],
      [stop]) reads a Trade whose [entry_price] exists, whose
      [close_datetime()] returns unless the attribute is missing, and whose
      prices, profit figures and datetimes are integers ([Z]), a datetime
      as its ordinal.  It carries the properties that depend neither on the
      arithmetic of the curve nor on the other ways an attribute can fail.
      The second embedding ([PyTrade.t], [Py.run], [Py.stop]) lifts these
      restrictions: [entry_price] and [exit_price] may be missing,
      [open_datetime()] and [close_datetime()] may raise any exception, and
      the amounts are values of the dtype of their column, which
      [Series.cumsum] adds with the addition of that dtype ([float64],
      [int64]).  One run has one dtype for its amounts; a column that
      pandas would convert on concatenation is outside the model.
    - [_tradeDict] is a Python [dict]: an association list in insertion
      order, a key that is assigned again keeps its place.
    - [pd.DataFrame.sort_values] is code of pandas, not of this repository:
      it is a parameter ([Pandas]); where a proof needs it, it is known by
      what pandas documents ([PandasSpec]): a permutation of the rows in
      ascending order of the key.
    - [calc_equity] is dead code in the source (the only call is commented
      out); it is embedded apart, with the calls the commented line would
      make. *)

From Stdlib Require Import Floats.
From Stdlib Require Import ZArith List String Bool Lia Permutation Sorted.
From Stdlib Require DecimalString.
Import ListNotations.
Local Open Scope Z_scope.

(** ** Python values and exceptions *)

Inductive exn : Type :=
| Exception       (* raise Exception(...) in create_analysis *)
| TypeError       (* None used as a dict, as an iterable or subscripted *)
| AttributeError  (* a missing attribute *)
| ValueError.     (* truth value of a DataFrame *)

Inductive result (A : Type) : Type :=
| Ok (a : A)
| Raise (e : exn).
Arguments Ok {A} a.
Arguments Raise {A} e.

(** What an attribute of [self.rets] holds: a Python list (of one-row
    frames), one concatenated DataFrame, or [None]. *)
Inductive Value (A : Type) : Type :=
| PyList (rows : list A)
| DataFrame (rows : list A)
| PyNone.
Arguments PyList {A} rows.
Arguments DataFrame {A} rows.
Arguments PyNone {A}.

(** ** The data *)

Module Trade.
(** The attributes of a backtrader [Trade] the analyzer reads. *)
Record t : Type := mk {
  tradeid : Z;
  isopen : bool;
  long : bool;
  entry_price : Z;
  open_datetime : Z;
  pnl : Z;
  pnlcomm : Z;
  R : option Z;               (* hasattr(trade, 'R') *)
  close_datetime : option Z;  (* None: AttributeError *)
  exit_price : option Z       (* None: AttributeError *)
}.
End Trade.

Module Row.
(** The one-row frame [_trade] built for every trade. *)
Record t : Type := mk {
  entry_price : Z;
  entry_date : Z;
  pnl : Z;
  pnlcomm : Z;
  is_long : bool;
  R_stop : option Z;
  tradeid : Z
}.
End Row.

Module ClosedRow.
(** [_trade] after the two columns of a closed trade were added. *)
Record t : Type := mk {
  base : Row.t;
  exit_date : Z;
  exit_price : Z
}.
End ClosedRow.

(** A frame of two columns, ['exit_date','pnlcomm'] and later
    ['date','equity'], as pairs. *)
Definition Frame2 : Type := list (Z * Z).

(** ** The dict *)

Definition dict : Type := list (Z * Trade.t).

(** [d[k] = v] *)
Fixpoint dict_set (d : dict) (k : Z) (v : Trade.t) : dict :=
  match d with
  | [] => [(k, v)]
  | (k', v') :: d' =>
      if k' =? k then (k, v) :: d' else (k', v') :: dict_set d' k v
  end.

(** [d[k]] *)
Fixpoint dict_get (d : dict) (k : Z) : option Trade.t :=
  match d with
  | [] => None
  | (k', v') :: d' => if k' =? k then Some v' else dict_get d' k
  end.

Definition keys (d : dict) : list Z := map fst d.
Definition values (d : dict) : list Trade.t := map snd d.

(** ** The analyzer object *)

Record Rets : Type := mkRets {
  openTrades : Value Row.t;
  closedTrades : Value ClosedRow.t;
  equityCurve : Value (Z * Z);
  _closed : bool                  (* AutoOrderedDict._close() *)
}.

Record TradeRecorder : Type := mkSelf {
  p_mode : string;
  rets : Rets;
  _tradeDict : option dict;
  stdout : list string            (* what print() wrote so far *)
}.

Definition set_openTrades (v : Value Row.t) (o : Rets) : Rets :=
  mkRets v (closedTrades o) (equityCurve o) (_closed o).
Definition set_closedTrades (v : Value ClosedRow.t) (o : Rets) : Rets :=
  mkRets (openTrades o) v (equityCurve o) (_closed o).
Definition set_equityCurve (v : Value (Z * Z)) (o : Rets) : Rets :=
  mkRets (openTrades o) (closedTrades o) v (_closed o).
Definition _close (o : Rets) : Rets :=
  mkRets (openTrades o) (closedTrades o) (equityCurve o) true.

Definition set_rets (o : Rets) (self : TradeRecorder) : TradeRecorder :=
  mkSelf (p_mode self) o (_tradeDict self) (stdout self).
Definition set_tradeDict (d : option dict) (self : TradeRecorder) : TradeRecorder :=
  mkSelf (p_mode self) (rets self) d (stdout self).
Definition set_stdout (out : list string) (self : TradeRecorder) : TradeRecorder :=
  mkSelf (p_mode self) (rets self) (_tradeDict self) out.

(** ** A state and exception monad over the object

    A method is a function of [self] that gives its outcome and [self] as
    the call left it, also when it raises. *)

Definition M (A : Type) : Type := TradeRecorder -> result A * TradeRecorder.

Definition ret {A} (a : A) : M A := fun self => (Ok a, self).

Definition bind {A B} (c : M A) (k : A -> M B) : M B :=
  fun self =>
    match c self with
    | (Ok a, self') => k a self'
    | (Raise e, self') => (Raise e, self')
    end.

Definition raise {A} (e : exn) : M A := fun self => (Raise e, self).
Definition get : M TradeRecorder := fun self => (Ok self, self).
Definition modify (f : TradeRecorder -> TradeRecorder) : M unit :=
  fun self => (Ok tt, f self).
Definition modify_rets (f : Rets -> Rets) : M unit :=
  modify (fun self => set_rets (f (rets self)) self).

Declare Scope py_scope.
Delimit Scope py_scope with py.
Notation "x <- c ;; k" := (bind c (fun x => k))
  (at level 100, c at next level, right associativity) : py_scope.
Notation "c ;; k" := (bind c (fun _ => k))
  (at level 100, right associativity) : py_scope.
Local Open Scope py_scope.

(** [for x in l: body(x)] *)
Fixpoint for_each {A} (l : list A) (body : A -> M unit) : M unit :=
  match l with
  | [] => ret tt
  | x :: l' => body x ;; for_each l' body
  end.

(** [print(line)] *)
Definition print (line : string) : M unit :=
  modify (fun self => set_stdout (stdout self ++ [line]) self).

(** [mode in [...]] *)
Definition mode_in (mode : string) (l : list string) : bool :=
  existsb (String.eqb mode) l.

(** ** pandas *)

Definition by_date (a b : Z * Z) : Prop := fst a <= fst b.

(** [_df.sort_values(['exit_date'], ascending=True)] on a two-column
    frame, a function of pandas. *)
Class Pandas : Type := {
  sort_values : Frame2 -> Frame2
}.

(** What pandas documents of it: the rows, in ascending order of the first
    column.  The sort algorithm is pandas' default ([kind='quicksort']);
    nothing is assumed on the order of rows with equal keys. *)
Class PandasSpec (pandas : Pandas) : Prop := {
  sort_values_perm : forall df, Permutation df (sort_values df);
  sort_values_sorted : forall df, StronglySorted by_date (sort_values df)
}.

(** [Series.cumsum()] on the second column. *)
Fixpoint cumsum_from (acc : Z) (df : Frame2) : Frame2 :=
  match df with
  | [] => []
  | (d, x) :: df' => (d, acc + x) :: cumsum_from (acc + x) df'
  end.

Definition cumsum (df : Frame2) : Frame2 := cumsum_from 0 df.

(** [lst.append(x)]: a list grows in place; [DataFrame.append] gives a new
    frame and leaves the receiver as it is (pandas before 2.0, the line the
    source was written for); [None] has no [append]. *)
Definition append {A} (v : Value A) (x : A) : result (Value A) :=
  match v with
  | PyList l => Ok (PyList (l ++ [x]))
  | DataFrame l => Ok (DataFrame l)
  | PyNone => Raise AttributeError
  end.

(** [pd.concat(v).reset_index(drop=True) if v != [] else None] *)
Definition concat_or_none {A} (v : Value A) : result (Value A) :=
  match v with
  | PyList [] => Ok PyNone
  | PyList l => Ok (DataFrame l)
  | DataFrame _ => Raise ValueError   (* if <frame>: ambiguous truth value *)
  | PyNone => Raise TypeError         (* pd.concat(None) *)
  end.

(** ** TradeRecorder *)

Definition valid_modes : list string :=
  ["trades"; "equity"; "trades+equity"]%string.

(** [create_analysis]: the object as the constructor leaves it, and the
    exception of an invalid [mode]. *)
Definition create_analysis (mode : string) : result unit * TradeRecorder :=
  let self := mkSelf mode (mkRets (PyList []) (PyList []) (PyList []) false)
                     (Some []) [] in
  if negb (mode_in mode valid_modes) then (Raise Exception, self)
  else (Ok tt, self).

(** [notify_trade]: [self._tradeDict[trade.tradeid] = trade] *)
Definition notify_trade (trade : Trade.t) : M unit :=
  fun self =>
    match _tradeDict self with
    | Some d =>
        (Ok tt, set_tradeDict (Some (dict_set d (Trade.tradeid trade) trade)) self)
    | None => (Raise TypeError, self)
    end.

(** The frame [_trade] of lines 159-176. *)
Definition make_row (trade : Trade.t) : Row.t :=
  match Trade.R trade with
  | Some r =>
      Row.mk (Trade.entry_price trade) (Trade.open_datetime trade)
             (Trade.pnl trade) (Trade.pnlcomm trade) (Trade.long trade)
             (Some r) (Trade.tradeid trade)
  | None =>
      Row.mk (Trade.entry_price trade) (Trade.open_datetime trade)
             (Trade.pnl trade) (Trade.pnlcomm trade) (Trade.long trade)
             None (Trade.tradeid trade)
  end.

(** The text printed before the AttributeError is raised again (the
    exception's own text and the line breaks left out). *)
Definition missing_attributes_notice : string :=
  "The Trade object received by this TradeRecorder Analyzer is missing extra attributes not included in the public Backtrader version. To use this Analyzer, you need to hack trade.py to add in two extra attributes. See Rich O'Regan for details."%string.

(** [self.rets.openTrades.append(_trade)] *)
Definition append_open (row : Row.t) : M unit :=
  self <- get ;;
  match append (openTrades (rets self)) row with
  | Ok v => modify_rets (set_openTrades v)
  | Raise e => raise e
  end.

(** [self.rets.closedTrades.append(_trade)] *)
Definition append_closed (row : ClosedRow.t) : M unit :=
  self <- get ;;
  match append (closedTrades (rets self)) row with
  | Ok v => modify_rets (set_closedTrades v)
  | Raise e => raise e
  end.

(** The body of the loop of [stop], lines 149-210. *)
Definition stop_body (trade : Trade.t) : M unit :=
  self <- get ;;
  let _trade := make_row trade in
  if Trade.isopen trade && mode_in (p_mode self) ["trade"; "trades+equity"]%string
  then append_open _trade
  else
    if mode_in (p_mode self) ["trades"; "trades+equity"]%string then
      match Trade.close_datetime trade, Trade.exit_price trade with
      | Some d, Some p => append_closed (ClosedRow.mk _trade d p)
      | _, _ => print missing_attributes_notice ;; raise AttributeError
      end
    else ret tt.

(** Lines 215-222. *)
Definition concat_trades : M unit :=
  self <- get ;;
  if mode_in (p_mode self) ["trades"; "trades+equity"]%string then
    match concat_or_none (closedTrades (rets self)) with
    | Ok c =>
        modify_rets (set_closedTrades c) ;;
        match concat_or_none (openTrades (rets self)) with
        | Ok o => modify_rets (set_openTrades o)
        | Raise e => raise e
        end
    | Raise e => raise e
    end
  else
    (* o.closedTrades = o.openTrades = None *)
    modify_rets (set_closedTrades PyNone) ;;
    modify_rets (set_openTrades PyNone).

Section WithPandas.
Context {pandas : Pandas}.

(** Lines 233-241. *)
Definition equity : M unit :=
  self <- get ;;
  if mode_in (p_mode self) ["equity"; "trades+equity"]%string then
    match closedTrades (rets self) with
    | DataFrame rows =>
        let _df := map (fun r => (ClosedRow.exit_date r,
                                  Row.pnlcomm (ClosedRow.base r))) rows in
        let _df := sort_values _df in
        let _df := cumsum _df in
        modify_rets (set_equityCurve (DataFrame _df))
    | PyNone => raise TypeError    (* None[[...]] *)
    | PyList _ => raise TypeError  (* a list indexed by a list *)
    end
  else modify_rets (set_equityCurve PyNone).

(** [stop].  The loop [for n in self._tradeDict: trade = self._tradeDict[n]]
    visits the values of the dict in insertion order. *)
Definition stop : M unit :=
  self <- get ;;
  match _tradeDict self with
  | None => raise TypeError        (* for n in None *)
  | Some d =>
      for_each (values d) stop_body ;;
      concat_trades ;;
      equity ;;
      modify (set_tradeDict None) ;;
      modify_rets _close
  end.

End WithPandas.

(** A run of the host: construction, then the notifications in order. *)
Fixpoint notify_all (ns : list Trade.t) : M unit :=
  match ns with
  | [] => ret tt
  | n :: ns' => notify_trade n ;; notify_all ns'
  end.

Definition run (mode : string) (ns : list Trade.t) : result unit * TradeRecorder :=
  match create_analysis mode with
  | (Ok _, self) => notify_all ns self
  | r => r
  end.

(** ** Functional readings used by the proofs *)

(** The dict after the notifications [ns], from the dict [d]. *)
Definition record_all (ns : list Trade.t) (d : dict) : dict :=
  fold_left (fun d trade => dict_set d (Trade.tradeid trade) trade) ns d.

(** The last notification of [ns] that carries the id [id]. *)
Fixpoint last_recorded (ns : list Trade.t) (id : Z) : option Trade.t :=
  match ns with
  | [] => None
  | n :: ns' =>
      match last_recorded ns' id with
      | Some t => Some t
      | None => if Trade.tradeid n =? id then Some n else None
      end
  end.

(** The test of line 179. *)
Definition goes_open (mode : string) (trade : Trade.t) : bool :=
  Trade.isopen trade && mode_in mode ["trade"; "trades+equity"]%string.

(** The test of lines 193 and 216. *)
Definition wants_trades (mode : string) : bool :=
  mode_in mode ["trades"; "trades+equity"]%string.

(** The test of line 233. *)
Definition wants_equity (mode : string) : bool :=
  mode_in mode ["equity"; "trades+equity"]%string.

(** The row of a trade that reaches line 198, when both attributes exist. *)
Definition closed_row (trade : Trade.t) : option ClosedRow.t :=
  match Trade.close_datetime trade, Trade.exit_price trade with
  | Some d, Some p => Some (ClosedRow.mk (make_row trade) d p)
  | _, _ => None
  end.

(** The loop of [stop] as a pure function: the rows appended to
    [openTrades] and to [closedTrades], and whether the loop came to its
    end ([false]: it stopped at a trade without exit attributes). *)
Fixpoint scan (mode : string) (l : list Trade.t)
  : list Row.t * list ClosedRow.t * bool :=
  match l with
  | [] => ([], [], true)
  | trade :: l' =>
      if goes_open mode trade then
        let '(o, c, ok) := scan mode l' in (make_row trade :: o, c, ok)
      else if wants_trades mode then
        match closed_row trade with
        | Some r => let '(o, c, ok) := scan mode l' in (o, r :: c, ok)
        | None => ([], [], false)
        end
      else scan mode l'
  end.

(** The rows a result attribute holds ([None]: no rows). *)
Definition frame_rows {A} (v : Value A) : list A :=
  match v with
  | PyList l => l
  | DataFrame l => l
  | PyNone => []
  end.

(** A list of one-row frames as [stop] stores it: one frame, or [None]. *)
Definition as_frame {A} (l : list A) : Value A :=
  match l with
  | [] => PyNone
  | _ => DataFrame l
  end.

Definition open_ids (v : Value Row.t) : list Z :=
  map Row.tradeid (frame_rows v).
Definition closed_ids (v : Value ClosedRow.t) : list Z :=
  map (fun c => Row.tradeid (ClosedRow.base c)) (frame_rows v).

(** The two columns the equity curve is computed from. *)
Definition equity_columns (rows : list ClosedRow.t) : Frame2 :=
  map (fun r => (ClosedRow.exit_date r, Row.pnlcomm (ClosedRow.base r))) rows.


(** The object [create_analysis] leaves, with a dict and an output. *)
Definition fresh (mode : string) (d : option dict) (out : list string) : TradeRecorder :=
  mkSelf mode (mkRets (PyList []) (PyList []) (PyList []) false) d out.

(** Every value is stored under its own [tradeid]. *)
Definition keyed (d : dict) : Prop :=
  Forall (fun kv => Trade.tradeid (snd kv) = fst kv) d.

(** ** Trades for the examples *)

(** A long trade entered at 100 at time 1, without [R]. *)
Definition open_trade (id : Z) : Trade.t :=
  Trade.mk id true true 100 1 0 0 None None None.

(** An open trade that has [exit_price] and whose [close_datetime()]
    returns a date.  (For an open Trade of the modified [trade.py], which
    sets [exit_price] in every [update], [dtclose] is still 0.0 and
    [close_datetime()] raises ValueError: that trade is
    [modified_open_trade] of the second embedding.) *)
Definition open_trade_hacked (id : Z) : Trade.t :=
  Trade.mk id true true 100 1 0 0 None (Some 0) (Some 100).

Definition closed_trade (id exit_date pnlcomm : Z) : Trade.t :=
  Trade.mk id false true 100 1 pnlcomm pnlcomm None (Some exit_date)
           (Some (100 + pnlcomm)).

(** Trade 1 is notified open and then closed; trade 2 closed. *)
Definition ex_notifications : list Trade.t :=
  [open_trade 1; closed_trade 1 2 10; closed_trade 2 3 5].

Definition ex_recorder : TradeRecorder :=
  fresh "trades+equity"
        (Some [(1, closed_trade 1 2 10); (2, closed_trade 2 3 5)]) [].

Definition ex_stopped : TradeRecorder :=
  mkSelf "trades+equity"
    (mkRets PyNone
       (DataFrame
          [ClosedRow.mk (Row.mk 100 1 10 10 true None 1) 2 110;
           ClosedRow.mk (Row.mk 100 1 5 5 true None 2) 3 105])
       (DataFrame [(2, 10); (3, 15)]) true)
    None [].

(** Mode ['trades']: an open trade and a closed one. *)
Definition ex_trades_recorder : TradeRecorder :=
  fresh "trades" (Some [(1, open_trade_hacked 1); (2, closed_trade 2 3 5)]) [].

Definition ex_trades_stopped : TradeRecorder :=
  mkSelf "trades"
    (mkRets PyNone
       (DataFrame
          [ClosedRow.mk (Row.mk 100 1 0 0 true None 1) 0 100;
           ClosedRow.mk (Row.mk 100 1 5 5 true None 2) 3 105])
       PyNone true)
    None [].

(** Trade 2 notified first: the dict holds the trades in the other order. *)
Definition ex_notifications_reordered : list Trade.t :=
  [closed_trade 2 3 5; open_trade 1; closed_trade 1 2 10].

(** ** The other methods of the class *)

(** [len(v)]: the length of a list, the number of rows of a frame;
    [None] has no [len]. *)
Definition len {A} (v : Value A) : result nat :=
  match v with
  | PyList l => Ok (List.length l)
  | DataFrame l => Ok (List.length l)
  | PyNone => Raise TypeError
  end.

(** [str(n)] of a length, as an f-string renders it. *)
Definition str (n : nat) : string :=
  DecimalString.NilZero.string_of_uint (Nat.to_uint n).

Definition print_header : string := "TradeRecorder:"%string.
Definition print_open_line (n : nat) : string :=
  ("  - openTrades = list of length " ++ str n)%string.
Definition print_closed_line (n : nat) : string :=
  ("  - closedTrades = list of length " ++ str n)%string.

(** The method [print] of the class, lines 301-308 ([print] above is the
    builtin it calls).  Each f-string is evaluated when its line is
    reached, after the lines before it were printed. *)
Definition TradeRecorder_print : M unit :=
  print print_header ;;
  self <- get ;;
  match len (openTrades (rets self)) with
  | Raise e => raise e
  | Ok n =>
      print (print_open_line n) ;;
      self <- get ;;
      match len (closedTrades (rets self)) with
      | Raise e => raise e
      | Ok m => print (print_closed_line m)
      end
  end.

(** [calc_equity], lines 252-298, over the one attribute it reads and
    writes, [self._cumulativeEquity] ([create_analysis] sets it to [None],
    line 128).  The attribute is assigned before [trade.close_datetime()]
    is evaluated, so it is already updated when that raises. *)
Definition calc_equity (trade : Trade.t) (_cumulativeEquity : option Z)
  : result Frame2 * option Z :=
  match _cumulativeEquity with
  | None =>
      let cum := Trade.pnlcomm trade in
      match Trade.close_datetime trade with
      | Some d => (Ok [(Trade.open_datetime trade, 0); (d, cum)], Some cum)
      | None => (Raise AttributeError, Some cum)
      end
  | Some c =>
      let cum := c + Trade.pnlcomm trade in
      match Trade.close_datetime trade with
      | Some d => (Ok [(d, cum)], Some cum)
      | None => (Raise AttributeError, Some cum)
      end
  end.

(** [calc_equity] called for the trades of a list in turn, the frames it
    returns concatenated (the use the commented lines 188-190 and 224-226
    made of it). *)
Fixpoint calc_equity_all (trades : list Trade.t) (_cumulativeEquity : option Z)
  : result Frame2 * option Z :=
  match trades with
  | [] => (Ok [], _cumulativeEquity)
  | trade :: trades' =>
      match calc_equity trade _cumulativeEquity with
      | (Ok _equity, cum) =>
          match calc_equity_all trades' cum with
          | (Ok rest, cum') => (Ok (_equity ++ rest), cum')
          | (Raise e, cum') => (Raise e, cum')
          end
      | (Raise e, cum) => (Raise e, cum)
      end
  end.

(** ** traderecorderOLD.py

    The earlier version of the class.  It stores plain dicts in two lists,
    has no [mode], and in the branch of a closed trade ends with
    [self.rets.equityCurve.append({..., 'equity': trade.pnlcomm()})].
    [create_analysis] never sets [equityCurve], so what the lookup
    [self.rets.equityCurve.append] does is decided by [AutoOrderedDict],
    whose class is not among the sources: it is a parameter that may raise
    and may change [self.rets].  When it returns, the arguments are
    evaluated and [trade.pnlcomm()] calls a number: TypeError.
    [super().stop] on line 67 reads the method of the base class without
    calling it. *)

Module Old.

(** The dict [_trade] of an open trade. *)
Record OpenRow : Type := mkOpen {
  entry_price : Z;
  entry_date : Z;
  pnl : Z;
  pnlcomm : Z;
  tradeid : Z;
  R : option Z
}.

(** The dict [_trade] of a closed trade: the same keys and the two of the
    exit. *)
Record ClosedRow : Type := mkClosed {
  base : OpenRow;
  exit_price : Z;
  exit_date : Z
}.

Record Rets : Type := mkRets {
  openTrades : list OpenRow;
  closedTrades : list ClosedRow;
  _closed : bool
}.

Record TradeRecorder : Type := mkSelf {
  rets : Rets;
  _tradeDict : option dict;
  stdout : list string
}.

(** [create_analysis], lines 42-52. *)
Definition create_analysis : TradeRecorder :=
  mkSelf (mkRets [] [] false) (Some []) [].

(** [notify_trade], lines 55-62. *)
Definition notify_trade (trade : Trade.t) (self : TradeRecorder)
  : result unit * TradeRecorder :=
  match _tradeDict self with
  | Some d =>
      (Ok tt,
       mkSelf (rets self) (Some (dict_set d (Trade.tradeid trade) trade))
              (stdout self))
  | None => (Raise TypeError, self)
  end.

(** The keys both branches set, lines 82-89 and 94-103. *)
Definition open_row (trade : Trade.t) : OpenRow :=
  mkOpen (Trade.entry_price trade) (Trade.open_datetime trade)
         (Trade.pnl trade) (Trade.pnlcomm trade) (Trade.tradeid trade)
         (Trade.R trade).

Section WithAutoDict.
(** The lookup [self.rets.equityCurve.append]. *)
Variable equityCurve_append : Rets -> result unit * Rets.

(** The body of the loop of [stop], lines 72-106. *)
Definition stop_body (trade : Trade.t) (self : TradeRecorder)
  : result unit * TradeRecorder :=
  let o := rets self in
  if Trade.isopen trade then
    (Ok tt,
     mkSelf (mkRets (openTrades o ++ [open_row trade]) (closedTrades o) (_closed o))
            (_tradeDict self) (stdout self))
  else
    match Trade.exit_price trade with
    | None => (Raise AttributeError, self)
    | Some p =>
        match Trade.close_datetime trade with
        | None => (Raise AttributeError, self)
        | Some d =>
            let o1 := mkRets (openTrades o)
                             (closedTrades o ++ [mkClosed (open_row trade) p d])
                             (_closed o) in
            match equityCurve_append o1 with
            | (Raise e, o2) => (Raise e, mkSelf o2 (_tradeDict self) (stdout self))
            | (Ok _, o2) =>
                (* trade.pnlcomm() *)
                (Raise TypeError, mkSelf o2 (_tradeDict self) (stdout self))
            end
        end
    end.

Fixpoint stop_loop (trades : list Trade.t) (self : TradeRecorder)
  : result unit * TradeRecorder :=
  match trades with
  | [] => (Ok tt, self)
  | trade :: trades' =>
      match stop_body trade self with
      | (Ok _, self') => stop_loop trades' self'
      | (Raise e, self') => (Raise e, self')
      end
  end.

(** [stop], lines 66-113. *)
Definition stop (self : TradeRecorder) : result unit * TradeRecorder :=
  match _tradeDict self with
  | None => (Raise TypeError, self)        (* for n in None *)
  | Some d =>
      match stop_loop (values d) self with
      | (Ok _, self') =>
          let o := rets self' in
          (Ok tt,
           mkSelf (mkRets (openTrades o) (closedTrades o) true) None (stdout self'))
      | (Raise e, self') => (Raise e, self')
      end
  end.

End WithAutoDict.

(** [print], lines 116-123: the two results are lists here. *)
Definition TradeRecorder_print (self : TradeRecorder) : result unit * TradeRecorder :=
  (Ok tt,
   mkSelf (rets self) (_tradeDict self)
     (stdout self ++
      [print_header;
       print_open_line (List.length (openTrades (rets self)));
       print_closed_line (List.length (closedTrades (rets self)))])).

(** A run of the host: construction, then the notifications in order. *)
Fixpoint notify_all (ns : list Trade.t) (self : TradeRecorder)
  : result unit * TradeRecorder :=
  match ns with
  | [] => (Ok tt, self)
  | n :: ns' =>
      match notify_trade n self with
      | (Ok _, self') => notify_all ns' self'
      | (Raise e, self') => (Raise e, self')
      end
  end.

Definition run (ns : list Trade.t) : result unit * TradeRecorder :=
  notify_all ns create_analysis.

End Old.

(** ** The class over Trade objects as Python has them

    [Trade.t] above is a Trade whose attributes were all read: its
    [entry_price] exists, [close_datetime()] returns or the attribute is
    missing, and the amounts are exact integers.  The embedding of this
    section lifts the three restrictions.  [entry_price] may be missing
    (the public Trade has neither [entry_price] nor [exit_price]), and it
    is read outside the [try], on lines 161 and 171.  [close_datetime()]
    may raise any exception (for an open Trade [dtclose] is 0.0 and
    [num2date] raises ValueError); the [except] clause of line 200 catches
    AttributeError only; [open_datetime()], called on lines 162 and 172
    outside the [try], may raise as well.  The amounts of one run are values
    of one type [num], the dtype of the amount columns (float64 for the
    floats backtrader computes, int64 for Python ints), and [cumsum] adds
    them as pandas does, with the addition of that dtype, of which nothing
    is assumed. *)

Module PyTrade.
Record t {num : Type} : Type := mk {
  tradeid : Z;
  isopen : bool;
  long : bool;
  entry_price : option num;    (* None: AttributeError *)
  open_datetime : result Z;    (* the call returns a date or raises *)
  pnl : num;
  pnlcomm : num;
  R : option num;              (* hasattr(trade, 'R') *)
  close_datetime : result Z;   (* the call returns a date or raises *)
  exit_price : option num      (* None: AttributeError *)
}.
Arguments t : clear implicits.
Arguments mk {num}.
End PyTrade.

Module PyRow.
Record t {num : Type} : Type := mk {
  entry_price : num;
  entry_date : Z;
  pnl : num;
  pnlcomm : num;
  is_long : bool;
  R_stop : option num;
  tradeid : Z
}.
Arguments t : clear implicits.
Arguments mk {num}.
End PyRow.

Module PyClosedRow.
Record t {num : Type} : Type := mk {
  base : PyRow.t num;
  exit_date : Z;
  exit_price : num
}.
Arguments t : clear implicits.
Arguments mk {num}.
End PyClosedRow.

Module Py.

(** The dtype of the amount columns, as [Series.cumsum] uses it. *)
Class Dtype (num : Type) : Type := {
  add : num -> num -> num;   (* the addition of the dtype *)
  isna : num -> bool;        (* pandas' [isna] on a value *)
  zero : num;                (* 0.0 *)
  nan : num                  (* np.nan *)
}.

Section Amounts.
Context {num : Type} {dtype : Dtype num}.

Definition dict : Type := list (Z * PyTrade.t num).

Fixpoint dict_set (d : dict) (k : Z) (v : PyTrade.t num) : dict :=
  match d with
  | [] => [(k, v)]
  | (k', v') :: d' =>
      if k' =? k then (k, v) :: d' else (k', v') :: dict_set d' k v
  end.

Fixpoint dict_get (d : dict) (k : Z) : option (PyTrade.t num) :=
  match d with
  | [] => None
  | (k', v') :: d' => if k' =? k then Some v' else dict_get d' k
  end.

Definition keys (d : dict) : list Z := map fst d.
Definition values (d : dict) : list (PyTrade.t num) := map snd d.

Record Rets : Type := mkRets {
  openTrades : Value (PyRow.t num);
  closedTrades : Value (PyClosedRow.t num);
  equityCurve : Value (Z * num);
  _closed : bool
}.

Record TradeRecorder : Type := mkSelf {
  p_mode : string;
  rets : Rets;
  _tradeDict : option dict;
  stdout : list string
}.

(** One method after another: the second runs when the first returned. *)
Definition seq (c k : TradeRecorder -> result unit * TradeRecorder)
  : TradeRecorder -> result unit * TradeRecorder :=
  fun self =>
    match c self with
    | (Ok _, self') => k self'
    | (Raise e, self') => (Raise e, self')
    end.

(** [create_analysis] *)
Definition create_analysis (mode : string) : result unit * TradeRecorder :=
  let self := mkSelf mode (mkRets (PyList []) (PyList []) (PyList []) false)
                     (Some []) [] in
  if negb (mode_in mode valid_modes) then (Raise Exception, self)
  else (Ok tt, self).

(** [notify_trade] *)
Definition notify_trade (trade : PyTrade.t num) (self : TradeRecorder)
  : result unit * TradeRecorder :=
  match _tradeDict self with
  | Some d =>
      (Ok tt,
       mkSelf (p_mode self) (rets self)
              (Some (dict_set d (PyTrade.tradeid trade) trade)) (stdout self))
  | None => (Raise TypeError, self)
  end.

(** The frame [_trade] of lines 159-176: in both branches
    [trade.entry_price] is the first attribute read and
    [trade.open_datetime()] the second. *)
Definition make_row (trade : PyTrade.t num) : result (PyRow.t num) :=
  match PyTrade.R trade with
  | Some r =>
      match PyTrade.entry_price trade with
      | Some entry_price =>
          match PyTrade.open_datetime trade with
          | Ok entry_date =>
              Ok (PyRow.mk entry_price entry_date
                           (PyTrade.pnl trade) (PyTrade.pnlcomm trade)
                           (PyTrade.long trade) (Some r) (PyTrade.tradeid trade))
          | Raise e => Raise e
          end
      | None => Raise AttributeError
      end
  | None =>
      match PyTrade.entry_price trade with
      | Some entry_price =>
          match PyTrade.open_datetime trade with
          | Ok entry_date =>
              Ok (PyRow.mk entry_price entry_date
                           (PyTrade.pnl trade) (PyTrade.pnlcomm trade)
                           (PyTrade.long trade) None (PyTrade.tradeid trade))
          | Raise e => Raise e
          end
      | None => Raise AttributeError
      end
  end.

(** [print(e, ...)] of line 201. *)
Definition print_notice (self : TradeRecorder) : TradeRecorder :=
  mkSelf (p_mode self) (rets self) (_tradeDict self)
         (stdout self ++ [missing_attributes_notice]).

Definition with_rets (o : Rets) (self : TradeRecorder) : TradeRecorder :=
  mkSelf (p_mode self) o (_tradeDict self) (stdout self).

(** The body of the loop of [stop], lines 149-210. *)
Definition stop_body (trade : PyTrade.t num) (self : TradeRecorder)
  : result unit * TradeRecorder :=
  match make_row trade with
  | Raise e => (Raise e, self)
  | Ok _trade =>
      let o := rets self in
      if PyTrade.isopen trade
         && mode_in (p_mode self) ["trade"; "trades+equity"]%string
      then
        match append (openTrades o) _trade with
        | Ok v =>
            (Ok tt, with_rets (mkRets v (closedTrades o) (equityCurve o) (_closed o)) self)
        | Raise e => (Raise e, self)
        end
      else
        if mode_in (p_mode self) ["trades"; "trades+equity"]%string then
          match PyTrade.close_datetime trade with
          | Raise AttributeError => (Raise AttributeError, print_notice self)
          | Raise e => (Raise e, self)
          | Ok d =>
              match PyTrade.exit_price trade with
              | None => (Raise AttributeError, print_notice self)
              | Some p =>
                  match append (closedTrades o) (PyClosedRow.mk _trade d p) with
                  | Ok v =>
                      (Ok tt,
                       with_rets (mkRets (openTrades o) v (equityCurve o) (_closed o)) self)
                  | Raise e => (Raise e, self)
                  end
              end
          end
        else (Ok tt, self)
  end.

(** [for n in self._tradeDict: ...] over the values in insertion order. *)
Fixpoint stop_loop (trades : list (PyTrade.t num)) (self : TradeRecorder)
  : result unit * TradeRecorder :=
  match trades with
  | [] => (Ok tt, self)
  | trade :: trades' => seq (stop_body trade) (stop_loop trades') self
  end.

(** Lines 215-222. *)
Definition concat_trades (self : TradeRecorder) : result unit * TradeRecorder :=
  let o := rets self in
  if mode_in (p_mode self) ["trades"; "trades+equity"]%string then
    match concat_or_none (closedTrades o) with
    | Ok c =>
        match concat_or_none (openTrades o) with
        | Ok op => (Ok tt, with_rets (mkRets op c (equityCurve o) (_closed o)) self)
        | Raise e =>
            (Raise e, with_rets (mkRets (openTrades o) c (equityCurve o) (_closed o)) self)
        end
    | Raise e => (Raise e, self)
    end
  else
    (Ok tt, with_rets (mkRets PyNone PyNone (equityCurve o) (_closed o)) self).

(** [_df.sort_values(['exit_date'], ascending=True)], a function of
    pandas. *)
Class Pandas : Type := {
  sort_values : list (Z * num) -> list (Z * num)
}.

Definition by_date (a b : Z * num) : Prop := fst a <= fst b.

(** What pandas documents of it; nothing is assumed on the order of rows
    with equal dates. *)
Class PandasSpec (pandas : Pandas) : Prop := {
  sort_values_perm : forall df, Permutation df (sort_values df);
  sort_values_sorted : forall df, StronglySorted by_date (sort_values df)
}.

(** [Series.cumsum()], with [skipna=True]: pandas puts 0.0 where the value
    is NaN, lets numpy accumulate (the first value as it is, then each value
    added to the sum before it), and puts NaN back at those places.  For an
    integer dtype no value is NaN. *)
Definition fillna (x : num) : num := if isna x then zero else x.

Fixpoint accumulate (acc : num) (df : list (Z * num)) : list (Z * num) :=
  match df with
  | [] => []
  | (d, x) :: df' =>
      let acc' := add acc (fillna x) in
      (d, if isna x then nan else acc') :: accumulate acc' df'
  end.

Definition cumsum (df : list (Z * num)) : list (Z * num) :=
  match df with
  | [] => []
  | (d, x) :: df' => (d, if isna x then nan else x) :: accumulate (fillna x) df'
  end.

Section WithPandas.
Context {pandas : Pandas}.

(** Lines 233-241. *)
Definition equity (self : TradeRecorder) : result unit * TradeRecorder :=
  let o := rets self in
  if mode_in (p_mode self) ["equity"; "trades+equity"]%string then
    match closedTrades o with
    | DataFrame rows =>
        let _df := map (fun r => (PyClosedRow.exit_date r,
                                  PyRow.pnlcomm (PyClosedRow.base r))) rows in
        let _df := sort_values _df in
        let _df := cumsum _df in
        (Ok tt,
         with_rets (mkRets (openTrades o) (closedTrades o) (DataFrame _df) (_closed o))
                   self)
    | PyNone => (Raise TypeError, self)
    | PyList _ => (Raise TypeError, self)
    end
  else
    (Ok tt, with_rets (mkRets (openTrades o) (closedTrades o) PyNone (_closed o)) self).

(** Lines 244-249. *)
Definition tear_down (self : TradeRecorder) : result unit * TradeRecorder :=
  let o := rets self in
  (Ok tt,
   mkSelf (p_mode self)
          (mkRets (openTrades o) (closedTrades o) (equityCurve o) true)
          None (stdout self)).

(** [stop] *)
Definition stop (self : TradeRecorder) : result unit * TradeRecorder :=
  match _tradeDict self with
  | None => (Raise TypeError, self)
  | Some d =>
      seq (stop_loop (values d)) (seq concat_trades (seq equity tear_down)) self
  end.

End WithPandas.

(** A run of the host: construction, then the notifications in order. *)
Fixpoint notify_all (ns : list (PyTrade.t num)) (self : TradeRecorder)
  : result unit * TradeRecorder :=
  match ns with
  | [] => (Ok tt, self)
  | n :: ns' => seq (notify_trade n) (notify_all ns') self
  end.

Definition run (mode : string) (ns : list (PyTrade.t num))
  : result unit * TradeRecorder :=
  match create_analysis mode with
  | (Ok _, self) => notify_all ns self
  | r => r
  end.

(** *** Readings used by the proofs *)

Definition record_all (ns : list (PyTrade.t num)) (d : dict) : dict :=
  fold_left (fun d trade => dict_set d (PyTrade.tradeid trade) trade) ns d.

(** The last notification of [ns] that carries the id [id]. *)
Fixpoint last_recorded (ns : list (PyTrade.t num)) (id : Z)
  : option (PyTrade.t num) :=
  match ns with
  | [] => None
  | n :: ns' =>
      match last_recorded ns' id with
      | Some t => Some t
      | None => if PyTrade.tradeid n =? id then Some n else None
      end
  end.

Definition keyed (d : dict) : Prop :=
  Forall (fun kv => PyTrade.tradeid (snd kv) = fst kv) d.

(** What the body of the loop does with one trade. *)
Inductive step : Type :=
| Opens (r : PyRow.t num)          (* appended to openTrades *)
| Closes (c : PyClosedRow.t num)   (* appended to closedTrades *)
| Skips                            (* mode 'equity' *)
| Fails (e : exn) (logged : bool). (* raised, after the notice or not *)

Definition classify (mode : string) (trade : PyTrade.t num) : step :=
  match make_row trade with
  | Raise e => Fails e false
  | Ok _trade =>
      if PyTrade.isopen trade && mode_in mode ["trade"; "trades+equity"]%string
      then Opens _trade
      else
        if mode_in mode ["trades"; "trades+equity"]%string then
          match PyTrade.close_datetime trade with
          | Raise AttributeError => Fails AttributeError true
          | Raise e => Fails e false
          | Ok d =>
              match PyTrade.exit_price trade with
              | None => Fails AttributeError true
              | Some p => Closes (PyClosedRow.mk _trade d p)
              end
          end
        else Skips
  end.

(** The loop as a pure function: the rows appended, and how the loop
    stopped if it did. *)
Fixpoint scan (mode : string) (l : list (PyTrade.t num))
  : list (PyRow.t num) * list (PyClosedRow.t num) * option (exn * bool) :=
  match l with
  | [] => ([], [], None)
  | trade :: l' =>
      match classify mode trade with
      | Opens r => let '(o, c, f) := scan mode l' in (r :: o, c, f)
      | Closes r => let '(o, c, f) := scan mode l' in (o, r :: c, f)
      | Skips => scan mode l'
      | Fails e logged => ([], [], Some (e, logged))
      end
  end.

Definition fresh (mode : string) (d : option dict) (out : list string) : TradeRecorder :=
  mkSelf mode (mkRets (PyList []) (PyList []) (PyList []) false) d out.

Definition equity_columns (rows : list (PyClosedRow.t num)) : list (Z * num) :=
  map (fun r => (PyClosedRow.exit_date r, PyRow.pnlcomm (PyClosedRow.base r))) rows.

(** The sum of a column from left to right: the first value, then one
    addition for each further value. *)
Definition sum_left (xs : list num) : option num :=
  match xs with
  | [] => None
  | x :: xs' => Some (fold_left add xs' x)
  end.

(** The cumulative amount at the last row of [rows]: NaN when the amount
    of that row is NaN; otherwise the amounts of [rows], NaN counted as
    zero, summed from left to right. *)
Definition cumulative (rows : list (Z * num)) : option num :=
  match rev rows with
  | [] => None
  | (_, x) :: _ =>
      if isna x then Some nan else sum_left (map (fun r => fillna (snd r)) rows)
  end.

(** The value of the last point of the curve. *)
Definition final_equity (v : Value (Z * num)) : option num :=
  match rev (frame_rows v) with
  | [] => None
  | (_, e) :: _ => Some e
  end.

(** An insertion sort by date that keeps rows of equal date in their
    order, for running the model. *)
Fixpoint insert_by_date (x : Z * num) (l : list (Z * num)) : list (Z * num) :=
  match l with
  | [] => [x]
  | y :: l' => if fst x <=? fst y then x :: y :: l' else y :: insert_by_date x l'
  end.

Fixpoint insertion_sort (l : list (Z * num)) : list (Z * num) :=
  match l with
  | [] => []
  | x :: l' => insert_by_date x (insertion_sort l')
  end.

Definition insertion_pandas : Pandas := {| sort_values := insertion_sort |}.

End Amounts.
End Py.

Arguments Py.dict : clear implicits.
Arguments Py.Rets : clear implicits.
Arguments Py.TradeRecorder : clear implicits.
Arguments Py.Pandas : clear implicits.
Arguments Py.step : clear implicits.
Arguments Py.Dtype : clear implicits.

(** *** Readings and trades for the second embedding *)

Section PyReadings.
Context {num : Type}.

(** The body of the loop returns for this trade. *)
Definition py_passes (mode : string) (t : PyTrade.t num) : bool :=
  match Py.classify mode t with
  | Py.Fails _ _ => false
  | _ => true
  end.

(** The rows the loop appends to [openTrades] and to [closedTrades]. *)
Definition py_opened (mode : string) (l : list (PyTrade.t num)) : list (PyRow.t num) :=
  flat_map (fun t => match Py.classify mode t with Py.Opens r => [r] | _ => [] end) l.

Definition py_closed (mode : string) (l : list (PyTrade.t num))
  : list (PyClosedRow.t num) :=
  flat_map (fun t => match Py.classify mode t with Py.Closes c => [c] | _ => [] end) l.

(** The row of the trade can be built: it has [entry_price] and
    [open_datetime()] returns. *)
Definition py_readable (t : PyTrade.t num) : Prop :=
  PyTrade.entry_price t <> None /\ exists d, PyTrade.open_datetime t = Ok d.

(** [close_datetime()] returns and [exit_price] exists. *)
Definition py_has_exit (t : PyTrade.t num) : Prop :=
  (exists d, PyTrade.close_datetime t = Ok d) /\ PyTrade.exit_price t <> None.

End PyReadings.

(** The dtypes of pandas: float64 with the addition of IEEE 754 doubles,
    and int64 with the addition that wraps around.  No value of an integer
    column is NaN, so [Py.zero] and [Py.nan] are not used there. *)
Definition float64 : Py.Dtype float :=
  {| Py.add := PrimFloat.add;
     Py.isna := PrimFloat.is_nan;
     Py.zero := 0%float;
     Py.nan := PrimFloat.nan |}.

Definition wrap64 (x : Z) : Z := (x + 2 ^ 63) mod 2 ^ 64 - 2 ^ 63.

Definition int64 : Py.Dtype Z :=
  {| Py.add := fun x y => wrap64 (x + y);
     Py.isna := fun _ => false;
     Py.zero := 0;
     Py.nan := 0 |}.

(** The trade as an object of the public Trade class, which has neither
    [entry_price] nor [exit_price]. *)
Definition as_public {num : Type} (t : PyTrade.t num) : PyTrade.t num :=
  PyTrade.mk (PyTrade.tradeid t) (PyTrade.isopen t) (PyTrade.long t) None
             (PyTrade.open_datetime t) (PyTrade.pnl t) (PyTrade.pnlcomm t)
             (PyTrade.R t) (PyTrade.close_datetime t) None.

(** A closed trade of the public Trade class: neither [entry_price] nor
    [exit_price]; [close_datetime()] returns. *)
Definition public_closed_trade (id : Z) : PyTrade.t Z :=
  PyTrade.mk id false true None (Ok 1) 10 10 None (Ok 2) None.

(** A closed trade with [entry_price] and without [exit_price]: a Trade
    of a [trade.py] that was modified in part. *)
Definition closed_trade_without_exit_price (id : Z) : PyTrade.t Z :=
  PyTrade.mk id false true (Some 100) (Ok 1) 10 10 None (Ok 2) None.

(** An open trade of the modified [trade.py]: [entry_price] and
    [exit_price] are set by [update]; [dtclose] is still 0.0, so
    [close_datetime()] raises ValueError. *)
Definition modified_open_trade (id : Z) : PyTrade.t Z :=
  PyTrade.mk id true true (Some 100) (Ok 1) 0 0 None (Raise ValueError) (Some 100).

(** A closed trade of the modified [trade.py]. *)
Definition modified_closed_trade (id exit_date pnlcomm : Z) : PyTrade.t Z :=
  PyTrade.mk id false true (Some 100) (Ok 1) pnlcomm pnlcomm None (Ok exit_date)
             (Some (100 + pnlcomm)).

(** The same with amounts that are floats, as backtrader computes them. *)
Definition float_closed_trade (id exit_date : Z) (pnlcomm : float) : PyTrade.t float :=
  PyTrade.mk id false true (Some 100%float) (Ok 1) pnlcomm pnlcomm None
             (Ok exit_date) (Some 100%float).

(** Trade 1 is notified open and then closed; trade 2 closed. *)
Definition py_notifications : list (PyTrade.t Z) :=
  [modified_open_trade 1; modified_closed_trade 1 2 10; modified_closed_trade 2 3 5].

(** The same notifications, the two of trade 1 exchanged. *)
Definition py_notifications_swapped : list (PyTrade.t Z) :=
  [modified_closed_trade 1 2 10; modified_open_trade 1; modified_closed_trade 2 3 5].

(** The same notifications, trade 2 first: the last notification of each
    trade is the same, the order of the ledger is not. *)
Definition py_notifications_reordered : list (PyTrade.t Z) :=
  [modified_closed_trade 2 3 5; modified_open_trade 1; modified_closed_trade 1 2 10].

(** The object after these notifications, and after [stop] with the
    dtype int64. *)
Definition py_recorder : Py.TradeRecorder Z :=
  Py.fresh "trades+equity"
    (Some [(1, modified_closed_trade 1 2 10); (2, modified_closed_trade 2 3 5)]) [].

Definition modified_closed_row (id exit_date pnlcomm : Z) : PyClosedRow.t Z :=
  PyClosedRow.mk (PyRow.mk 100 1 pnlcomm pnlcomm true None id) exit_date
                 (100 + pnlcomm).

Definition py_stopped : Py.TradeRecorder Z :=
  Py.mkSelf "trades+equity"
    (Py.mkRets PyNone
               (DataFrame [modified_closed_row 1 2 10; modified_closed_row 2 3 5])
               (DataFrame [(2, 10); (3, 15)])
               true)
    None [].

(** One open trade of the modified [trade.py], in mode ['trades']. *)
Definition py_open_recorder : Py.TradeRecorder Z :=
  Py.fresh "trades" (Some [(1, modified_open_trade 1)]) [].

(** Three trades closed at the same time, with float amounts. *)
Definition float_notifications : list (PyTrade.t float) :=
  [float_closed_trade 1 2 1e16%float;
   float_closed_trade 2 2 (-1e16)%float;
   float_closed_trade 3 2 1%float].

Definition float_notifications_rotated : list (PyTrade.t float) :=
  [float_closed_trade 2 2 (-1e16)%float;
   float_closed_trade 3 2 1%float;
   float_closed_trade 1 2 1e16%float].

(** ** Readings used by the further proofs *)

(** The ids of a list in the order of their first occurrence. *)
Fixpoint first_seen (ids : list Z) : list Z :=
  match ids with
  | [] => []
  | i :: ids' => i :: filter (fun j => negb (j =? i)) (first_seen ids')
  end.

(** A computation leaves the ledger and the mode as they were, whatever
    its outcome. *)
Definition keeps_ledger {A} (c : M A) : Prop :=
  forall s r s', c s = (r, s') ->
    _tradeDict s' = _tradeDict s /\ p_mode s' = p_mode s.

(** Mode ['trades+equity'], one open trade: the ledger, and the object as
    the failed [stop] leaves it. *)
Definition ex_open_only : TradeRecorder :=
  fresh "trades+equity" (Some [(1, open_trade 1)]) [].

Definition ex_open_only_failed : TradeRecorder :=
  mkSelf "trades+equity"
    (mkRets (DataFrame [Row.mk 100 1 0 0 true None 1]) PyNone (PyList []) false)
    (Some [(1, open_trade 1)]) [].

(** Mode ['trades+equity'], one open trade and one closed, after [stop]. *)
Definition ex_mixed_stopped : TradeRecorder :=
  mkSelf "trades+equity"
    (mkRets (DataFrame [Row.mk 100 1 0 0 true None 1])
       (DataFrame [ClosedRow.mk (Row.mk 100 1 5 5 true None 2) 3 105])
       (DataFrame [(3, 5)]) true)
    None [].

(** ** Sorts for running the model

    Insertion sorts by date, two implementations of what pandas documents
    of [sort_values]: one puts a row before the rows of the same date that
    follow it, the other after them.  The examples run [stop] with the
    first. *)

Fixpoint insert_by_date (before_ties : bool) (x : Z * Z) (l : Frame2) : Frame2 :=
  match l with
  | [] => [x]
  | y :: l' =>
      if (if before_ties then fst x <=? fst y else fst x <? fst y)
      then x :: y :: l'
      else y :: insert_by_date before_ties x l'
  end.

Fixpoint insertion_sort (before_ties : bool) (l : Frame2) : Frame2 :=
  match l with
  | [] => []
  | x :: l' => insert_by_date before_ties x (insertion_sort before_ties l')
  end.

Definition insertion_pandas : Pandas :=
  {| sort_values := insertion_sort true |}.

Definition insertion_pandas_ties_reversed : Pandas :=
  {| sort_values := insertion_sort false |}.

(** * Proofs *)

Section InsertionSort.
Variable before_ties : bool.

Lemma insert_by_date_perm (x : Z * Z) (l : Frame2) :
  Permutation (x :: l) (insert_by_date before_ties x l).
Proof.
  induction l as [|y l IH]; simpl.
  - apply Permutation_refl.
  - destruct (if before_ties then fst x <=? fst y else fst x <? fst y).
    + apply Permutation_refl.
    + eapply perm_trans; [apply perm_swap|].
      now apply perm_skip.
Qed.

Lemma insertion_sort_perm (l : Frame2) :
  Permutation l (insertion_sort before_ties l).
Proof.
  induction l as [|x l IH]; simpl.
  - constructor.
  - eapply perm_trans; [apply perm_skip, IH|].
    apply insert_by_date_perm.
Qed.

Lemma insert_by_date_sorted (x : Z * Z) (l : Frame2) :
  StronglySorted by_date l ->
  StronglySorted by_date (insert_by_date before_ties x l).
Proof.
  induction 1 as [|y l Hs IH Hall]; simpl.
  - repeat constructor.
  - destruct (if before_ties then fst x <=? fst y else fst x <? fst y) eqn:Hcmp.
    + assert (Hle : fst x <= fst y) by (destruct before_ties; lia).
      constructor; [now constructor|].
      constructor; [exact Hle|].
      eapply Forall_impl; [|exact Hall].
      unfold by_date; intros; lia.
    + assert (Hle : fst y <= fst x) by (destruct before_ties; lia).
      constructor; [exact IH|].
      eapply Permutation_Forall; [apply insert_by_date_perm|].
      constructor; [exact Hle|exact Hall].
Qed.

Lemma insertion_sort_sorted (l : Frame2) :
  StronglySorted by_date (insertion_sort before_ties l).
Proof.
  induction l as [|x l IH]; simpl.
  - constructor.
  - now apply insert_by_date_sorted.
Qed.

End InsertionSort.

Lemma insertion_pandas_spec : PandasSpec insertion_pandas.
Proof.
  split; [exact (insertion_sort_perm true)|exact (insertion_sort_sorted true)].
Qed.

Lemma insertion_pandas_ties_reversed_spec : PandasSpec insertion_pandas_ties_reversed.
Proof.
  split; [exact (insertion_sort_perm false)|exact (insertion_sort_sorted false)].
Qed.

(** ** The dict: lookup, keys, invariant *)

Section DictFacts.


Lemma keys_dict_set_in (d : dict) (k : Z) (v : Trade.t) :
  In k (keys d) -> keys (dict_set d k v) = keys d.
Proof.
  unfold keys.
  induction d as [|[k0 v0] d IH]; simpl; intros Hin.
  - contradiction.
  - destruct (Z.eqb_spec k0 k) as [->|Hne]; simpl.
    + reflexivity.
    + f_equal. apply IH. destruct Hin; [contradiction|assumption].
Qed.

Lemma keys_dict_set_new (d : dict) (k : Z) (v : Trade.t) :
  ~ In k (keys d) -> keys (dict_set d k v) = keys d ++ [k].
Proof.
  unfold keys.
  induction d as [|[k0 v0] d IH]; simpl; intros Hnin.
  - reflexivity.
  - destruct (Z.eqb_spec k0 k) as [->|Hne]; simpl.
    + exfalso. apply Hnin. now left.
    + f_equal. apply IH. intros H. apply Hnin. now right.
Qed.


Lemma keyed_dict_set (d : dict) (v : Trade.t) :
  keyed d -> keyed (dict_set d (Trade.tradeid v) v).
Proof.
  unfold keyed.
  induction 1 as [|[k0 v0] d Hk Hd IH]; simpl.
  - now repeat constructor.
  - destruct (k0 =? Trade.tradeid v).
    + now constructor.
    + now constructor.
Qed.

Lemma keyed_values_ids (d : dict) :
  keyed d -> map Trade.tradeid (values d) = keys d.
Proof.
  unfold keyed, values, keys.
  induction 1 as [|[k0 v0] d Hk Hd IH]; simpl in *; congruence.
Qed.





Lemma record_all_keyed (ns : list Trade.t) (d : dict) :
  keyed d -> keyed (record_all ns d).
Proof.
  revert d.
  induction ns as [|n ns IH]; intros d Hk; simpl; [assumption|].
  apply IH. now apply keyed_dict_set.
Qed.

End DictFacts.

(** ** What a run leaves *)

Lemma notify_all_fresh (ns : list Trade.t) (mode : string) (d : dict) (out : list string) :
  notify_all ns (fresh mode (Some d) out) =
  (Ok tt, fresh mode (Some (record_all ns d)) out).
Proof.
  revert d.
  induction ns as [|n ns IH]; intros d; simpl.
  - reflexivity.
  - unfold bind. simpl. apply IH.
Qed.

Lemma run_valid (mode : string) (ns : list Trade.t) :
  mode_in mode valid_modes = true ->
  run mode ns = (Ok tt, fresh mode (Some (record_all ns [])) []).
Proof.
  intros Hm. unfold run, create_analysis. rewrite Hm. simpl.
  apply notify_all_fresh.
Qed.

Lemma run_invalid (mode : string) (ns : list Trade.t) :
  mode_in mode valid_modes = false ->
  run mode ns = (Raise Exception, fresh mode (Some []) []).
Proof.
  intros Hm. unfold run, create_analysis. now rewrite Hm.
Qed.

Lemma run_ok_inv (mode : string) (ns : list Trade.t) (self : TradeRecorder) :
  run mode ns = (Ok tt, self) ->
  mode_in mode valid_modes = true /\
  self = fresh mode (Some (record_all ns [])) [].
Proof.
  intros H.
  destruct (mode_in mode valid_modes) eqn:Hm.
  - rewrite run_valid in H by assumption. split; congruence.
  - rewrite run_invalid in H by assumption. discriminate.
Qed.

(** ** The loop of [stop] is [scan] *)

Lemma for_each_scan (l : list Trade.t) :
  forall (mode : string) (lo : list Row.t) (lc : list ClosedRow.t)
         (e : Value (Z * Z)) (cl : bool) (d : option dict) (out : list string),
    for_each l stop_body (mkSelf mode (mkRets (PyList lo) (PyList lc) e cl) d out) =
    let '(o, c, ok) := scan mode l in
    (if ok then Ok tt else Raise AttributeError,
     mkSelf mode (mkRets (PyList (lo ++ o)) (PyList (lc ++ c)) e cl) d
            (if ok then out else out ++ [missing_attributes_notice])).
Proof.
  induction l as [|trade l IH]; intros mode lo lc e cl d out.
  - simpl. now rewrite !app_nil_r.
  - cbn [for_each scan]. unfold bind at 1. unfold stop_body at 1.
    unfold bind at 1. cbn [get p_mode].
    fold (goes_open mode trade). fold (wants_trades mode).
    destruct (goes_open mode trade).
    + unfold append_open, bind, get, modify_rets, modify; cbn.
      unfold set_rets, set_openTrades; cbn.
      rewrite IH. destruct (scan mode l) as [[o c] ok].
      now rewrite <- app_assoc.
    + destruct (wants_trades mode).
      * unfold closed_row.
        destruct (Trade.close_datetime trade) as [dt|];
          [destruct (Trade.exit_price trade) as [p|]|].
        -- unfold append_closed, bind, get, modify_rets, modify; cbn.
           unfold set_rets, set_closedTrades; cbn.
           rewrite IH. destruct (scan mode l) as [[o c] ok].
           now rewrite <- app_assoc.
        -- cbn. now rewrite !app_nil_r.
        -- cbn. now rewrite !app_nil_r.
      * cbn. apply IH.
Qed.

(** ** [stop] on the object a run leaves *)

Section StopFacts.
Context {pandas : Pandas}.

(** [stop] on an object whose result lists are still empty, case by case:
    the loop stops at a trade without exit attributes; or the trades are
    concatenated and the equity frame is computed, which raises when
    [closedTrades] is [None]. *)
Lemma stop_fresh (mode : string) (d : dict) (out : list string) :
  stop (fresh mode (Some d) out) =
  let '(o, c, ok) := scan mode (values d) in
  if negb ok then
    (Raise AttributeError,
     mkSelf mode (mkRets (PyList o) (PyList c) (PyList []) false) (Some d)
            (out ++ [missing_attributes_notice]))
  else if wants_trades mode then
    if wants_equity mode then
      match c with
      | [] =>
          (Raise TypeError,
           mkSelf mode (mkRets (as_frame o) PyNone (PyList []) false) (Some d) out)
      | _ :: _ =>
          (Ok tt,
           mkSelf mode
                  (mkRets (as_frame o) (DataFrame c)
                          (DataFrame (cumsum (sort_values (equity_columns c)))) true)
                  None out)
      end
    else
      (Ok tt, mkSelf mode (mkRets (as_frame o) (as_frame c) PyNone true) None out)
  else if wants_equity mode then
    (Raise TypeError,
     mkSelf mode (mkRets PyNone PyNone (PyList []) false) (Some d) out)
  else
    (Ok tt, mkSelf mode (mkRets PyNone PyNone PyNone true) None out).
Proof.
  unfold stop, fresh. unfold bind at 1. cbn [get _tradeDict].
  unfold bind at 1. rewrite for_each_scan. cbn [app].
  destruct (scan mode (values d)) as [[o c] ok].
  destruct ok; cbn [negb]; [|reflexivity].
  pose proof (eq_refl : wants_trades mode = mode_in mode _) as Ht.
  pose proof (eq_refl : wants_equity mode = mode_in mode _) as He.
  unfold concat_trades, equity, bind, get, modify_rets, modify.
  cbn [p_mode rets closedTrades openTrades set_rets set_closedTrades set_openTrades].
  rewrite <- Ht.
  destruct (wants_trades mode);
    destruct c as [|c0 c]; destruct o as [|o0 o];
    cbn [concat_or_none p_mode rets closedTrades openTrades set_rets
         set_closedTrades set_openTrades raise];
    rewrite <- He; destruct (wants_equity mode); reflexivity.
Qed.

(** A stopped object: [_tradeDict] is [None]. *)
Lemma stop_torn_down (self : TradeRecorder) :
  _tradeDict self = None -> stop self = (Raise TypeError, self).
Proof.
  intros H. unfold stop, bind, get, raise. now rewrite H.
Qed.

End StopFacts.

(** ** What [scan] gives *)

Lemma valid_mode_cases (mode : string) :
  mode_in mode valid_modes = true ->
  mode = "trades"%string \/ mode = "equity"%string \/ mode = "trades+equity"%string.
Proof.
  unfold mode_in, valid_modes. cbn [existsb].
  rewrite !orb_true_iff, !String.eqb_eq. intuition discriminate.
Qed.

Lemma make_row_tradeid (t : Trade.t) : Row.tradeid (make_row t) = Trade.tradeid t.
Proof. unfold make_row. now destruct (Trade.R t). Qed.

Lemma make_row_pnlcomm (t : Trade.t) : Row.pnlcomm (make_row t) = Trade.pnlcomm t.
Proof. unfold make_row. now destruct (Trade.R t). Qed.

Lemma closed_row_inv (t : Trade.t) (r : ClosedRow.t) :
  closed_row t = Some r ->
  ClosedRow.base r = make_row t /\
  Trade.close_datetime t = Some (ClosedRow.exit_date r) /\
  Trade.exit_price t = Some (ClosedRow.exit_price r).
Proof.
  unfold closed_row.
  destruct (Trade.close_datetime t); [|discriminate].
  destruct (Trade.exit_price t); [|discriminate].
  intros H. inversion H; subst. cbn. auto.
Qed.

(** When the loop ends in a mode with trades, it has split the trades by
    the test of line 179. *)
Lemma scan_ok_split (mode : string) (l : list Trade.t) :
  wants_trades mode = true ->
  forall o c, scan mode l = (o, c, true) ->
    o = map make_row (filter (goes_open mode) l) /\
    map Some c = map closed_row (filter (fun t => negb (goes_open mode t)) l).
Proof.
  intros Hw.
  induction l as [|t l IH]; cbn [scan filter]; intros o c H.
  - inversion H. auto.
  - rewrite Hw in H.
    destruct (goes_open mode t); cbn [negb].
    + destruct (scan mode l) as [[o' c'] ok']. inversion H; subst.
      destruct (IH o' c eq_refl) as [-> Hc]. auto.
    + destruct (closed_row t) as [r|] eqn:Hr; [|discriminate].
      destruct (scan mode l) as [[o' c'] ok']. inversion H; subst.
      destruct (IH o c' eq_refl) as [Ho Hc]. cbn [map].
      rewrite Hr, Hc. auto.
Qed.

Lemma scan_equity (l : list Trade.t) : scan "equity" l = ([], [], true).
Proof.
  induction l as [|t l IH]; cbn [scan]; [reflexivity|].
  unfold goes_open. replace (mode_in "equity" _) with false by reflexivity.
  rewrite andb_false_r.
  replace (wants_trades "equity") with false by reflexivity.
  exact IH.
Qed.

Lemma frame_rows_as_frame {A} (l : list A) : frame_rows (as_frame l) = l.
Proof. now destruct l. Qed.




Section StopResults.
Context {pandas : Pandas}.

(** When [stop] returns on the object of a run, the mode includes trades,
    the loop came to its end, and the results hold the rows it appended. *)
Lemma stop_ok_rows (mode : string) (d : dict) (out : list string) (self' : TradeRecorder) :
  mode_in mode valid_modes = true ->
  stop (fresh mode (Some d) out) = (Ok tt, self') ->
  wants_trades mode = true /\
  scan mode (values d) =
    (frame_rows (openTrades (rets self')), frame_rows (closedTrades (rets self')), true) /\
  _tradeDict self' = None.
Proof.
  intros Hm Hs. rewrite stop_fresh in Hs.
  destruct (scan mode (values d)) as [[o c] ok].
  destruct ok; cbn [negb] in Hs; [|discriminate].
  destruct (valid_mode_cases mode Hm) as [ -> | [ -> | -> ] ].
  - replace (wants_trades "trades") with true in * by reflexivity.
    replace (wants_equity "trades") with false in * by reflexivity.
    inversion Hs; subst; cbn. now rewrite !frame_rows_as_frame.
  - replace (wants_trades "equity") with false in * by reflexivity.
    replace (wants_equity "equity") with true in * by reflexivity.
    discriminate.
  - replace (wants_trades "trades+equity") with true in * by reflexivity.
    replace (wants_equity "trades+equity") with true in * by reflexivity.
    destruct c as [|c0 c]; [discriminate|].
    inversion Hs; subst; cbn. now rewrite !frame_rows_as_frame.
Qed.

End StopResults.



(** ** C1: last write wins *)


(** ** The examples run *)

Example ex_run : run "trades+equity" ex_notifications = (Ok tt, ex_recorder).
Proof. reflexivity. Qed.

Example ex_stop : @stop insertion_pandas ex_recorder = (Ok tt, ex_stopped).
Proof. reflexivity. Qed.

(** The first scenario of the specification: trade A notified open, then
    closed with profit 10 at time 2. *)
Example scenario_open_then_closed :
  @stop insertion_pandas (snd (run "trades+equity" [open_trade 1; closed_trade 1 2 10])) =
  (Ok tt,
   mkSelf "trades+equity"
     (mkRets PyNone
        (DataFrame [ClosedRow.mk (Row.mk 100 1 10 10 true None 1) 2 110])
        (DataFrame [(2, 10)]) true)
     None []).
Proof. reflexivity. Qed.

(** The second scenario: B (exit 3, profit 5) notified before C (exit 2,
    profit -2); the curve has C first. *)
Example scenario_sorted_by_exit :
  equityCurve (rets (snd (@stop insertion_pandas
    (snd (run "trades+equity" [closed_trade 2 3 5; closed_trade 3 2 (-2)]))))) =
  DataFrame [(2, -2); (3, 3)].
Proof. reflexivity. Qed.


(** ** After [stop] *)

Lemma bind_ok_inv {A B} (c : M A) (k : A -> M B) (s s' : TradeRecorder) (b : B) :
  bind c k s = (Ok b, s') ->
  exists a s1, c s = (Ok a, s1) /\ k a s1 = (Ok b, s').
Proof.
  unfold bind. destruct (c s) as [[a|e] s1]; intros H.
  - now exists a, s1.
  - discriminate.
Qed.

Section AfterStop.
Context {pandas : Pandas}.

(** A [stop] that returns has set [_tradeDict] to [None]. *)
Lemma stop_ok_torn_down (self self' : TradeRecorder) :
  stop self = (Ok tt, self') -> _tradeDict self' = None.
Proof.
  unfold stop. intros H.
  apply bind_ok_inv in H. destruct H as [s0 [s1 [Hget H]]].
  inversion Hget; subst s0 s1; clear Hget.
  destruct (_tradeDict self) as [d|]; [|discriminate].
  apply bind_ok_inv in H. destruct H as [u1 [s1 [_ H]]].
  apply bind_ok_inv in H. destruct H as [u2 [s2 [_ H]]].
  apply bind_ok_inv in H. destruct H as [u3 [s3 [_ H]]].
  apply bind_ok_inv in H. destruct H as [u4 [s4 [Hkill H]]].
  inversion Hkill; subst s4. inversion H. reflexivity.
Qed.

End AfterStop.

(** ** C8: a notification after [stop] *)

(** C8.  After a [stop] that returned, every [notify_trade] raises (the
    TypeError of an item assignment on [None], InvalidStateError in the
    words of the specification) and leaves the object, and with it the
    results of [stop], as it was. *)
Theorem notify_after_stop_raises (pandas : Pandas) (self self' : TradeRecorder)
    (trade : Trade.t) :
  stop self = (Ok tt, self') ->
  notify_trade trade self' = (Raise TypeError, self').
Proof.
  intros H. apply stop_ok_torn_down in H.
  unfold notify_trade. now rewrite H.
Qed.

Lemma notify_after_stop_raises_witness :
  @stop insertion_pandas ex_recorder = (Ok tt, ex_stopped) /\
  notify_trade (closed_trade 3 4 7) ex_stopped = (Raise TypeError, ex_stopped).
Proof.
  split; [reflexivity|].
  exact (notify_after_stop_raises insertion_pandas ex_recorder ex_stopped
                                  (closed_trade 3 4 7) eq_refl).
Defined.

(** ** C9: a second [stop] *)

(** C9, as the code has it.  After a [stop] that returned, a second [stop]
    raises (TypeError: the loop iterates over [None]) and leaves the object,
    and with it the results of the first call, as it was. *)
Theorem second_stop_raises (pandas : Pandas) (self self' : TradeRecorder) :
  stop self = (Ok tt, self') ->
  stop self' = (Raise TypeError, self').
Proof.
  intros H. apply stop_torn_down. now apply stop_ok_torn_down in H.
Qed.

Lemma second_stop_raises_witness :
  @stop insertion_pandas ex_recorder = (Ok tt, ex_stopped) /\
  @stop insertion_pandas ex_stopped = (Raise TypeError, ex_stopped).
Proof.
  split; [reflexivity|].
  exact (second_stop_raises insertion_pandas ex_recorder ex_stopped eq_refl).
Defined.

(** C9 as stated fails: the first [stop] returns, the second does not
    return the same results, it raises. *)
Lemma second_stop_counterexample :
  fst (@stop insertion_pandas ex_recorder) = Ok tt /\
  fst (@stop insertion_pandas (snd (@stop insertion_pandas ex_recorder))) <> Ok tt.
Proof.
  split; [reflexivity|]. cbv. discriminate.
Qed.

(** ** C2 to C5: the equity frame when [closedTrades] is [None], and the
    test of line 179

    Line 234 subscripts [o.closedTrades].  Lines 217-222 have set it to
    [None] when the mode is ['equity'] (the loop appends closed rows only
    in a mode with trades) and when no row was appended. *)

Section EquityFrame.
Context {pandas : Pandas}.

(** In mode ['equity'] [stop] raises whatever was notified. *)
Lemma stop_equity_mode (ns : list Trade.t) :
  stop (snd (run "equity" ns)) =
  (Raise TypeError,
   mkSelf "equity" (mkRets PyNone PyNone (PyList []) false)
          (Some (record_all ns [])) []).
Proof.
  rewrite run_valid by reflexivity. cbn [snd].
  rewrite stop_fresh, scan_equity. reflexivity.
Qed.

(** In mode ['trades'] no trade passes the test of line 179. *)
Lemma goes_open_trades (t : Trade.t) : goes_open "trades" t = false.
Proof. unfold goes_open. apply andb_false_r. Qed.

Lemma goes_open_trades_equity (t : Trade.t) :
  goes_open "trades+equity" t = Trade.isopen t.
Proof. unfold goes_open. apply andb_true_r. Qed.

End EquityFrame.

(** C2 at a failing input: mode ['equity'], two closed trades with their
    exit attributes.  The specification asks for the curve
    [(2, -2); (3, 3)]; [stop] raises TypeError and [equityCurve] is still
    the empty list. *)
Theorem equity_mode_curve_not_derived (pandas : Pandas) :
  fst (stop (snd (run "equity" [closed_trade 2 3 5; closed_trade 3 2 (-2)]))) =
    Raise TypeError /\
  equityCurve (rets (snd (stop (snd (run "equity"
    [closed_trade 2 3 5; closed_trade 3 2 (-2)]))))) = PyList [].
Proof.
  rewrite stop_equity_mode. split; reflexivity.
Qed.

(** C3 at a failing input: no notification at all.  In the modes
    ['trades+equity'] (the default) and ['equity'] [stop] raises TypeError;
    in mode ['trades'] it returns with the three results [None]. *)
Theorem empty_ledger_raises_with_equity (pandas : Pandas) :
  fst (stop (snd (run "trades+equity" []))) = Raise TypeError /\
  fst (stop (snd (run "equity" []))) = Raise TypeError /\
  stop (snd (run "trades" [])) =
    (Ok tt, mkSelf "trades" (mkRets PyNone PyNone PyNone true) None []).
Proof.
  split; [reflexivity|]. split; reflexivity.
Qed.

(** C4 at a failing input: mode ['trades'], one open trade.  The test of
    line 179 compares the mode with ['trade'], so the open trade takes the
    branch of the closed ones: with exit attributes its row is stored in
    [closedTrades] and [openTrades] is [None]; without them [stop] raises
    AttributeError. *)
Theorem trades_mode_open_trade_stored_closed (pandas : Pandas) :
  stop (snd (run "trades" [open_trade_hacked 1])) =
    (Ok tt,
     mkSelf "trades"
       (mkRets PyNone
          (DataFrame [ClosedRow.mk (Row.mk 100 1 0 0 true None 1) 0 100])
          PyNone true)
       None []) /\
  fst (stop (snd (run "trades" [open_trade 1]))) = Raise AttributeError.
Proof.
  split; reflexivity.
Qed.

(** C5: in mode ['equity'] [stop] never returns: whatever was notified, it
    raises TypeError at the equity frame, with [closedTrades] [None] and no
    curve. *)
Theorem equity_mode_always_raises (pandas : Pandas) (ns : list Trade.t) :
  fst (stop (snd (run "equity" ns))) = Raise TypeError /\
  closedTrades (rets (snd (stop (snd (run "equity" ns))))) = PyNone /\
  equityCurve (rets (snd (stop (snd (run "equity" ns))))) = PyList [].
Proof.
  rewrite stop_equity_mode. repeat split; reflexivity.
Qed.

(** ** The columns of the curve *)

(** The profit column of the closed rows. *)
Lemma closed_rows_pnlcomm (l : list Trade.t) :
  forall c, map Some c = map closed_row l ->
    map snd (equity_columns c) = map Trade.pnlcomm l /\
    List.length c = List.length l.
Proof.
  induction l as [|t l IH]; intros c H; destruct c as [|r c]; try discriminate.
  - split; reflexivity.
  - cbn in H. inversion H as [[Hr Hc]].
    destruct (IH c Hc) as [IH1 IH2].
    symmetry in Hr. apply closed_row_inv in Hr. destruct Hr as [Hb _].
    unfold equity_columns in *. cbn [map snd List.length].
    rewrite Hb, make_row_pnlcomm, IH1, IH2. split; reflexivity.
Qed.

(** ** Mode ['trades+equity'] *)

Lemma scan_trades_equity_split (l : list Trade.t) (o : list Row.t) (c : list ClosedRow.t) :
  scan "trades+equity" l = (o, c, true) ->
  o = map make_row (filter Trade.isopen l) /\
  map Some c = map closed_row (filter (fun t => negb (Trade.isopen t)) l).
Proof.
  intros H. apply scan_ok_split in H; [|reflexivity].
  destruct H as [Ho Hc]. split.
  - rewrite Ho. f_equal. apply filter_ext. intros t. apply goes_open_trades_equity.
  - rewrite Hc. f_equal. apply filter_ext. intros t.
    now rewrite goes_open_trades_equity.
Qed.

Section TradesEquity.
Context {pandas : Pandas} {spec : PandasSpec pandas}.

Lemma stop_trades_equity_inv (d : dict) (out : list string) (self' : TradeRecorder) :
  stop (fresh "trades+equity" (Some d) out) = (Ok tt, self') ->
  exists o c,
    scan "trades+equity" (values d) = (o, c, true) /\ c <> [] /\
    self' = mkSelf "trades+equity"
              (mkRets (as_frame o) (DataFrame c)
                      (DataFrame (cumsum (sort_values (equity_columns c)))) true)
              None out.
Proof.
  rewrite stop_fresh. intros H.
  destruct (scan "trades+equity" (values d)) as [[o c] ok].
  destruct ok; [|discriminate]. cbn [negb] in H.
  replace (wants_trades "trades+equity") with true in H by reflexivity.
  replace (wants_equity "trades+equity") with true in H by reflexivity.
  destruct c as [|c0 c]; [discriminate|].
  exists o, (c0 :: c). split; [reflexivity|]. split; [discriminate|].
  now inversion H.
Qed.

End TradesEquity.

(** ** The results in mode ['trades+equity'] *)

Lemma filter_split_length {A} (f : A -> bool) (l : list A) :
  (List.length (filter f l) + List.length (filter (fun x => negb (f x)) l) =
   List.length l)%nat.
Proof.
  induction l as [|x l IH]; cbn; [reflexivity|].
  destruct (f x); cbn; lia.
Qed.

(** X2.  In mode ['trades+equity'], when [stop] returns, the stored trades are
    split by [isopen]: the open rows are the rows of the open trades, the
    closed rows those of the closed trades with their exit columns, both in
    the order of the dict, and no trade is left out. *)
Theorem partition_trades_equity (pandas : Pandas) (ns : list Trade.t)
    (self self' : TradeRecorder) :
  run "trades+equity" ns = (Ok tt, self) ->
  stop self = (Ok tt, self') ->
  exists d,
    _tradeDict self = Some d /\
    frame_rows (openTrades (rets self')) =
      map make_row (filter Trade.isopen (values d)) /\
    map Some (frame_rows (closedTrades (rets self'))) =
      map closed_row (filter (fun t => negb (Trade.isopen t)) (values d)) /\
    (List.length (frame_rows (openTrades (rets self'))) +
     List.length (frame_rows (closedTrades (rets self'))) = List.length (keys d))%nat.
Proof.
  intros Hrun Hstop.
  apply run_ok_inv in Hrun. destruct Hrun as [_ ->].
  exists (record_all ns []). split; [reflexivity|].
  apply stop_trades_equity_inv in Hstop.
  destruct Hstop as [o [c [Hs [_ ->]]]]. cbn [rets openTrades closedTrades frame_rows].
  rewrite frame_rows_as_frame.
  apply scan_trades_equity_split in Hs. destruct Hs as [Ho Hc].
  split; [exact Ho|]. split; [exact Hc|].
  apply (f_equal (@List.length _)) in Hc. rewrite !length_map in Hc.
  rewrite Ho, Hc, length_map, filter_split_length.
  unfold values, keys. now rewrite !length_map.
Qed.

Lemma partition_trades_equity_witness :
  run "trades+equity" ex_notifications = (Ok tt, ex_recorder) /\
  @stop insertion_pandas ex_recorder = (Ok tt, ex_stopped) /\
  exists d,
    _tradeDict ex_recorder = Some d /\
    frame_rows (openTrades (rets ex_stopped)) =
      map make_row (filter Trade.isopen (values d)) /\
    map Some (frame_rows (closedTrades (rets ex_stopped))) =
      map closed_row (filter (fun t => negb (Trade.isopen t)) (values d)) /\
    (List.length (frame_rows (openTrades (rets ex_stopped))) +
     List.length (frame_rows (closedTrades (rets ex_stopped))) = List.length (keys d))%nat.
Proof.
  split; [reflexivity|]. split; [reflexivity|].
  exact (partition_trades_equity insertion_pandas ex_notifications ex_recorder
                                 ex_stopped eq_refl eq_refl).
Defined.

(** ** Mode ['trades'] *)

(** X3.  In mode ['trades'], when [stop] returns, there is no curve
    ([equityCurve] is [None]), [openTrades] is [None], and [closedTrades]
    holds a row for every trade of the ledger, open or closed, in the order
    of the dict. *)
Theorem trades_mode_results (pandas : Pandas) (ns : list Trade.t)
    (self self' : TradeRecorder) :
  run "trades" ns = (Ok tt, self) ->
  stop self = (Ok tt, self') ->
  exists d,
    _tradeDict self = Some d /\
    equityCurve (rets self') = PyNone /\
    openTrades (rets self') = PyNone /\
    map Some (frame_rows (closedTrades (rets self'))) = map closed_row (values d).
Proof.
  intros Hrun Hstop.
  apply run_ok_inv in Hrun. destruct Hrun as [_ ->].
  exists (record_all ns []). split; [reflexivity|].
  rewrite stop_fresh in Hstop.
  destruct (scan "trades" (values (record_all ns []))) as [[o c] ok] eqn:Hs.
  destruct ok; [|discriminate]. cbn [negb] in Hstop.
  replace (wants_trades "trades") with true in Hstop by reflexivity.
  replace (wants_equity "trades") with false in Hstop by reflexivity.
  inversion Hstop; subst self'. cbn [rets equityCurve openTrades closedTrades].
  apply scan_ok_split in Hs; [|reflexivity]. destruct Hs as [Ho Hc].
  assert (Hnone : forall l : list Trade.t, filter (goes_open "trades") l = []).
  { induction l as [|t l IH]; cbn; [reflexivity|]. now rewrite goes_open_trades. }
  assert (Hall : forall l : list Trade.t,
             filter (fun t => negb (goes_open "trades" t)) l = l).
  { induction l as [|t l IH]; cbn; [reflexivity|].
    rewrite goes_open_trades. cbn. now rewrite IH. }
  rewrite Hnone in Ho. rewrite Hall in Hc. subst o.
  rewrite frame_rows_as_frame. repeat split. exact Hc.
Qed.

Lemma trades_mode_results_witness :
  run "trades" [open_trade_hacked 1; closed_trade 2 3 5] = (Ok tt, ex_trades_recorder) /\
  @stop insertion_pandas ex_trades_recorder = (Ok tt, ex_trades_stopped) /\
  exists d,
    _tradeDict ex_trades_recorder = Some d /\
    equityCurve (rets ex_trades_stopped) = PyNone /\
    openTrades (rets ex_trades_stopped) = PyNone /\
    map Some (frame_rows (closedTrades (rets ex_trades_stopped))) =
    map closed_row (values d).
Proof.
  split; [reflexivity|]. split; [reflexivity|].
  exact (trades_mode_results insertion_pandas
           [open_trade_hacked 1; closed_trade 2 3 5]
           ex_trades_recorder ex_trades_stopped eq_refl eq_refl).
Defined.

(** ** Trades closed at the same time *)

(** What pandas documents of [sort_values] leaves the order of rows with
    equal dates open: for two trades closed at the same time, the points
    of the curve follow the order of the dict under one sort that meets
    [PandasSpec], and the reverse order under another. *)
Lemma curve_of_ties_depends_on_sort :
  PandasSpec insertion_pandas /\
  PandasSpec insertion_pandas_ties_reversed /\
  equityCurve (rets (snd (@stop insertion_pandas
    (snd (run "trades+equity" [closed_trade 1 2 10; closed_trade 2 2 5]))))) =
    DataFrame [(2, 10); (2, 15)] /\
  equityCurve (rets (snd (@stop insertion_pandas_ties_reversed
    (snd (run "trades+equity" [closed_trade 1 2 10; closed_trade 2 2 5]))))) =
    DataFrame [(2, 5); (2, 15)].
Proof.
  split; [exact insertion_pandas_spec|].
  split; [exact insertion_pandas_ties_reversed_spec|].
  split; reflexivity.
Qed.

(** * Further properties of the code *)

(** ** The trades of the ledger *)


(** ** A [stop] that raises keeps the ledger *)

Lemma bind_raise_inv {A B} (c : M A) (k : A -> M B) (s s' : TradeRecorder) (e : exn) :
  bind c k s = (Raise e, s') ->
  c s = (Raise e, s') \/ exists a s1, c s = (Ok a, s1) /\ k a s1 = (Raise e, s').
Proof.
  unfold bind. destruct (c s) as [[a|e0] s1]; intros H.
  - right. now exists a, s1.
  - left. inversion H; reflexivity.
Qed.

Lemma keeps_ledger_bind {A B} (c : M A) (k : A -> M B) :
  keeps_ledger c -> (forall a, keeps_ledger (k a)) -> keeps_ledger (bind c k).
Proof.
  intros Hc Hk s r s' H. unfold bind in H.
  destruct (c s) as [[a|e] s1] eqn:Hcs.
  - destruct (Hc _ _ _ Hcs) as [Hd Hm].
    destruct (Hk a _ _ _ H) as [Hd' Hm']. split; congruence.
  - inversion H; subst. exact (Hc _ _ _ Hcs).
Qed.

Lemma keeps_ledger_ret {A} (a : A) : keeps_ledger (ret a).
Proof. intros s r s' H. inversion H. auto. Qed.

Lemma keeps_ledger_raise {A} (e : exn) : keeps_ledger (@raise A e).
Proof. intros s r s' H. inversion H. auto. Qed.

Lemma keeps_ledger_get : keeps_ledger get.
Proof. intros s r s' H. inversion H. auto. Qed.

Lemma keeps_ledger_modify_rets (f : Rets -> Rets) : keeps_ledger (modify_rets f).
Proof. intros s r s' H. inversion H. auto. Qed.

Lemma keeps_ledger_print (line : string) : keeps_ledger (print line).
Proof. intros s r s' H. inversion H. auto. Qed.

Create HintDb ledger.
#[local] Hint Resolve keeps_ledger_ret keeps_ledger_raise keeps_ledger_get
  keeps_ledger_modify_rets keeps_ledger_print : ledger.

Ltac keeps_ledger_step :=
  repeat (apply keeps_ledger_bind; [auto with ledger|intros ?]);
  auto with ledger.

Lemma keeps_ledger_stop_body (trade : Trade.t) : keeps_ledger (stop_body trade).
Proof.
  unfold stop_body. apply keeps_ledger_bind; [auto with ledger|intros self].
  destruct (Trade.isopen trade && mode_in (p_mode self) _).
  - unfold append_open. apply keeps_ledger_bind; [auto with ledger|intros s0].
    destruct (append _ _); auto with ledger.
  - destruct (mode_in (p_mode self) _); [|auto with ledger].
    destruct (Trade.close_datetime trade) as [dt|];
      [destruct (Trade.exit_price trade) as [p|]|]; [|keeps_ledger_step..].
    unfold append_closed. apply keeps_ledger_bind; [auto with ledger|intros s0].
    destruct (append _ _); auto with ledger.
Qed.

Lemma keeps_ledger_for_each (l : list Trade.t) : keeps_ledger (for_each l stop_body).
Proof.
  induction l as [|t l IH]; cbn [for_each].
  - auto with ledger.
  - apply keeps_ledger_bind; [apply keeps_ledger_stop_body|intros _; exact IH].
Qed.

Lemma keeps_ledger_concat_trades : keeps_ledger concat_trades.
Proof.
  unfold concat_trades. apply keeps_ledger_bind; [auto with ledger|intros self].
  destruct (mode_in (p_mode self) _).
  - destruct (concat_or_none (closedTrades (rets self))); [|auto with ledger].
    apply keeps_ledger_bind; [auto with ledger|intros _].
    destruct (concat_or_none (openTrades (rets self))); auto with ledger.
  - keeps_ledger_step.
Qed.

Section FailedStop.
Context {pandas : Pandas}.

Lemma keeps_ledger_equity : keeps_ledger equity.
Proof.
  unfold equity. apply keeps_ledger_bind; [auto with ledger|intros self].
  destruct (mode_in (p_mode self) _); [|auto with ledger].
  destruct (closedTrades (rets self)); auto with ledger.
Qed.

(** Whatever the object, a [stop] that raises has not touched
    [_tradeDict] or the mode. *)
Lemma stop_raise_keeps_ledger (self self' : TradeRecorder) (e : exn) :
  stop self = (Raise e, self') ->
  _tradeDict self' = _tradeDict self /\ p_mode self' = p_mode self.
Proof.
  unfold stop. intros H.
  apply bind_raise_inv in H. destruct H as [H|[s0 [s1 [Hget H]]]]; [discriminate|].
  inversion Hget; subst s0 s1; clear Hget.
  destruct (_tradeDict self) as [d|] eqn:Hd; [|inversion H; subst; auto].
  apply bind_raise_inv in H. destruct H as [H|[u1 [s1 [H1 H]]]].
  { destruct (keeps_ledger_for_each _ _ _ _ H). split; congruence. }
  destruct (keeps_ledger_for_each _ _ _ _ H1) as [Hd1 Hm1].
  apply bind_raise_inv in H. destruct H as [H|[u2 [s2 [H2 H]]]].
  { destruct (keeps_ledger_concat_trades _ _ _ H). split; congruence. }
  destruct (keeps_ledger_concat_trades _ _ _ H2) as [Hd2 Hm2].
  apply bind_raise_inv in H. destruct H as [H|[u3 [s3 [H3 H]]]].
  { destruct (keeps_ledger_equity _ _ _ H). split; congruence. }
  apply bind_raise_inv in H. destruct H as [H|[u4 [s4 [H4 H]]]];
    [discriminate|discriminate].
Qed.

End FailedStop.

(** X7.  A [stop] that raises does not tear the ledger down: on any
    object that still has its dict, after the failed [stop] the dict and the
    mode are as before, and [notify_trade] goes on recording into it. *)
Theorem failed_stop_keeps_ledger (pandas : Pandas) (self self' : TradeRecorder)
    (e : exn) (d : dict) (trade : Trade.t) :
  stop self = (Raise e, self') ->
  _tradeDict self = Some d ->
  _tradeDict self' = Some d /\
  p_mode self' = p_mode self /\
  notify_trade trade self' =
    (Ok tt, set_tradeDict (Some (dict_set d (Trade.tradeid trade) trade)) self').
Proof.
  intros Hstop Hd.
  destruct (stop_raise_keeps_ledger _ _ _ Hstop) as [Hd' Hm].
  rewrite Hd in Hd'. repeat split; try assumption.
  unfold notify_trade. now rewrite Hd'.
Qed.

Lemma failed_stop_keeps_ledger_witness :
  @stop insertion_pandas ex_open_only = (Raise TypeError, ex_open_only_failed) /\
  _tradeDict ex_open_only = Some [(1, open_trade 1)] /\
  _tradeDict ex_open_only_failed = Some [(1, open_trade 1)] /\
  p_mode ex_open_only_failed = p_mode ex_open_only /\
  notify_trade (closed_trade 1 2 10) ex_open_only_failed =
    (Ok tt,
     set_tradeDict
       (Some (dict_set [(1, open_trade 1)] (Trade.tradeid (closed_trade 1 2 10))
                       (closed_trade 1 2 10)))
       ex_open_only_failed).
Proof.
  split; [reflexivity|]. split; [reflexivity|].
  exact (failed_stop_keeps_ledger insertion_pandas ex_open_only ex_open_only_failed
           TypeError [(1, open_trade 1)] (closed_trade 1 2 10) eq_refl eq_refl).
Defined.

(** ** The order of the ledger and of the rows *)

Lemma filter_twice {A} (f g : A -> bool) (l : list A) :
  filter f (filter g l) = filter (fun x => f x && g x) l.
Proof.
  induction l as [|x l IH]; cbn; [reflexivity|].
  destruct (g x); cbn.
  - destruct (f x); cbn; now rewrite IH.
  - now rewrite andb_false_r.
Qed.

Lemma existsb_eqb_In (j : Z) (l : list Z) :
  existsb (Z.eqb j) l = true <-> In j l.
Proof.
  rewrite existsb_exists. split.
  - intros [x [Hin Heq]]. apply Z.eqb_eq in Heq. now subst.
  - intros Hin. exists j. split; [assumption|apply Z.eqb_refl].
Qed.

(** The keys after more notifications: the keys there were, then the new
    ids in the order of their first notification. *)
Lemma record_all_keys (ns : list Trade.t) :
  forall d,
    keys (record_all ns d) =
    keys d ++ filter (fun j => negb (existsb (Z.eqb j) (keys d)))
                     (first_seen (map Trade.tradeid ns)).
Proof.
  induction ns as [|n ns IH]; intros d.
  - cbn. now rewrite app_nil_r.
  - change (record_all (n :: ns) d)
      with (record_all ns (dict_set d (Trade.tradeid n) n)).
    rewrite IH. cbn [map first_seen filter].
    set (k := Trade.tradeid n). set (L := first_seen (map Trade.tradeid ns)).
    destruct (in_dec Z.eq_dec k (keys d)) as [Hin|Hnin].
    + rewrite keys_dict_set_in by assumption.
      assert (Hk : existsb (Z.eqb k) (keys d) = true) by now apply existsb_eqb_In.
      rewrite Hk. cbn [negb]. f_equal.
      rewrite filter_twice. apply filter_ext_in. intros j _.
      destruct (existsb (Z.eqb j) (keys d)) eqn:Hj; cbn [negb andb]; [reflexivity|].
      destruct (Z.eqb_spec j k) as [->|Hne]; [congruence|reflexivity].
    + rewrite keys_dict_set_new by assumption.
      assert (Hk : existsb (Z.eqb k) (keys d) = false).
      { destruct (existsb (Z.eqb k) (keys d)) eqn:Hk; [|reflexivity].
        apply existsb_eqb_In in Hk. contradiction. }
      rewrite Hk. cbn [negb]. rewrite <- app_assoc. cbn [app]. do 2 f_equal.
      rewrite filter_twice. apply filter_ext. intros j.
      rewrite existsb_app. cbn [existsb]. rewrite orb_false_r, negb_orb.
      reflexivity.
Qed.

(** X8.  The ledger holds the ids in the order of their first
    notification (a trade notified again keeps its place); and when [stop]
    returns, the open rows and the closed rows each follow that order: they
    are the trades of the ledger, in its order, that pass and that fail the
    test of line 179. *)
Theorem rows_in_first_notification_order (pandas : Pandas) (mode : string)
    (ns : list Trade.t) (self : TradeRecorder) :
  run mode ns = (Ok tt, self) ->
  exists d,
    _tradeDict self = Some d /\
    keys d = first_seen (map Trade.tradeid ns) /\
    map Trade.tradeid (values d) = keys d /\
    forall self', stop self = (Ok tt, self') ->
      open_ids (openTrades (rets self')) =
        map Trade.tradeid (filter (goes_open mode) (values d)) /\
      closed_ids (closedTrades (rets self')) =
        map Trade.tradeid (filter (fun t => negb (goes_open mode t)) (values d)).
Proof.
  intros Hrun. apply run_ok_inv in Hrun. destruct Hrun as [Hm ->].
  exists (record_all ns []). split; [reflexivity|]. split; [|split].
  - rewrite record_all_keys. cbn [keys map app existsb negb].
    induction (first_seen (map Trade.tradeid ns)) as [|i l IH]; cbn; congruence.
  - apply keyed_values_ids, record_all_keyed. constructor.
  - intros self' Hstop.
    destruct (stop_ok_rows _ _ _ _ Hm Hstop) as [Hw [Hscan _]].
    apply scan_ok_split in Hscan; [|assumption]. destruct Hscan as [Ho Hc].
    unfold open_ids, closed_ids. rewrite Ho. split.
    + rewrite map_map. apply map_ext. apply make_row_tradeid.
    + revert Hc.
      generalize (frame_rows (closedTrades (rets self'))).
      induction (filter (fun t => negb (goes_open mode t))
                        (values (record_all ns []))) as [|t l IH];
        intros c Hc; destruct c as [|r c]; try discriminate; [reflexivity|].
      cbn in Hc. inversion Hc as [[Hr Hc']]. symmetry in Hr.
      apply closed_row_inv in Hr. destruct Hr as [Hb _].
      cbn [map]. rewrite Hb, make_row_tradeid. f_equal. now apply IH.
Qed.

Lemma rows_in_first_notification_order_witness :
  run "trades+equity" ex_notifications_reordered =
    (Ok tt, fresh "trades+equity"
              (Some [(2, closed_trade 2 3 5); (1, closed_trade 1 2 10)]) []) /\
  exists d,
    _tradeDict (fresh "trades+equity"
              (Some [(2, closed_trade 2 3 5); (1, closed_trade 1 2 10)]) []) = Some d /\
    keys d = first_seen (map Trade.tradeid ex_notifications_reordered) /\
    map Trade.tradeid (values d) = keys d /\
    forall self',
      @stop insertion_pandas
        (fresh "trades+equity"
           (Some [(2, closed_trade 2 3 5); (1, closed_trade 1 2 10)]) []) =
        (Ok tt, self') ->
      open_ids (openTrades (rets self')) =
        map Trade.tradeid (filter (goes_open "trades+equity") (values d)) /\
      closed_ids (closedTrades (rets self')) =
        map Trade.tradeid
            (filter (fun t => negb (goes_open "trades+equity" t)) (values d)).
Proof.
  split; [reflexivity|].
  exact (rows_in_first_notification_order insertion_pandas "trades+equity"
           ex_notifications_reordered _ eq_refl).
Defined.

(** ** [calc_equity] *)





Example calc_equity_two_trades :
  calc_equity_all [closed_trade 2 3 5; closed_trade 3 4 (-2)] None =
  (Ok [(1, 0); (3, 5); (4, 3)], Some 3).
Proof. reflexivity. Qed.



(** ** The method [print] *)

(** X11.  Before [stop], [print] reports the lengths 0 and 0 whatever
    was notified: the two result lists are filled by [stop] only. *)
Theorem print_before_stop (mode : string) (ns : list Trade.t) (self : TradeRecorder) :
  run mode ns = (Ok tt, self) ->
  TradeRecorder_print self =
  (Ok tt,
   set_stdout [print_header; print_open_line 0; print_closed_line 0] self).
Proof.
  intros Hrun. apply run_ok_inv in Hrun. destruct Hrun as [_ ->].
  reflexivity.
Qed.

Lemma print_before_stop_witness :
  run "trades+equity" ex_notifications = (Ok tt, ex_recorder) /\
  TradeRecorder_print ex_recorder =
  (Ok tt,
   set_stdout [print_header; print_open_line 0; print_closed_line 0] ex_recorder).
Proof.
  split; [reflexivity|].
  exact (print_before_stop "trades+equity" ex_notifications ex_recorder eq_refl).
Defined.

Section PrintAfterStop.
Context {pandas : Pandas}.

Lemma stop_trades_inv (d : dict) (out : list string) (self' : TradeRecorder) :
  stop (fresh "trades" (Some d) out) = (Ok tt, self') ->
  exists c,
    map Some c = map closed_row (values d) /\
    self' = mkSelf "trades" (mkRets PyNone (as_frame c) PyNone true) None out.
Proof.
  rewrite stop_fresh. intros H.
  destruct (scan "trades" (values d)) as [[o c] ok] eqn:Hs.
  destruct ok; [|discriminate]. cbn [negb] in H.
  replace (wants_trades "trades") with true in H by reflexivity.
  replace (wants_equity "trades") with false in H by reflexivity.
  apply scan_ok_split in Hs; [|reflexivity]. destruct Hs as [Ho Hc].
  assert (Hnone : forall l : list Trade.t, filter (goes_open "trades") l = []).
  { induction l as [|t l IH]; cbn; [reflexivity|]. now rewrite goes_open_trades. }
  assert (Hall : forall l : list Trade.t,
             filter (fun t => negb (goes_open "trades" t)) l = l).
  { induction l as [|t l IH]; cbn; [reflexivity|].
    rewrite goes_open_trades. cbn. now rewrite IH. }
  rewrite Hnone in Ho. rewrite Hall in Hc. subst o.
  exists c. split; [exact Hc|]. now inversion H.
Qed.

End PrintAfterStop.

(** X12.  In mode ['trades'], after a [stop] that returned, [print]
    always raises TypeError, having printed its first line only:
    [openTrades] is [None] there and has no [len]. *)
Theorem print_after_stop_trades_mode (pandas : Pandas) (ns : list Trade.t)
    (self self' : TradeRecorder) :
  run "trades" ns = (Ok tt, self) ->
  stop self = (Ok tt, self') ->
  TradeRecorder_print self' =
  (Raise TypeError, set_stdout (stdout self' ++ [print_header]) self').
Proof.
  intros Hrun Hstop.
  apply run_ok_inv in Hrun. destruct Hrun as [_ ->].
  apply stop_trades_inv in Hstop. destruct Hstop as [c [_ ->]].
  reflexivity.
Qed.

Lemma print_after_stop_trades_mode_witness :
  run "trades" [open_trade_hacked 1; closed_trade 2 3 5] = (Ok tt, ex_trades_recorder) /\
  @stop insertion_pandas ex_trades_recorder = (Ok tt, ex_trades_stopped) /\
  TradeRecorder_print ex_trades_stopped =
  (Raise TypeError,
   set_stdout (stdout ex_trades_stopped ++ [print_header]) ex_trades_stopped).
Proof.
  split; [reflexivity|]. split; [reflexivity|].
  exact (print_after_stop_trades_mode insertion_pandas
           [open_trade_hacked 1; closed_trade 2 3 5]
           ex_trades_recorder ex_trades_stopped eq_refl eq_refl).
Defined.

(** X13.  In mode ['trades+equity'], after a [stop] that returned: when
    no trade of the ledger is open, [openTrades] is [None] and [print]
    raises TypeError after its first line; otherwise [print] returns and
    its two lines give the number of open trades and the number of closed
    trades of the ledger. *)
Theorem print_after_stop_trades_equity (pandas : Pandas) (ns : list Trade.t)
    (self self' : TradeRecorder) :
  run "trades+equity" ns = (Ok tt, self) ->
  stop self = (Ok tt, self') ->
  exists d,
    _tradeDict self = Some d /\
    TradeRecorder_print self' =
    match filter Trade.isopen (values d) with
    | [] =>
        (Raise TypeError, set_stdout (stdout self' ++ [print_header]) self')
    | opens =>
        (Ok tt,
         set_stdout
           (stdout self' ++
            [print_header;
             print_open_line (List.length opens);
             print_closed_line
               (List.length (filter (fun t => negb (Trade.isopen t)) (values d)))])
           self')
    end.
Proof.
  intros Hrun Hstop.
  apply run_ok_inv in Hrun. destruct Hrun as [_ ->].
  exists (record_all ns []). split; [reflexivity|].
  apply stop_trades_equity_inv in Hstop.
  destruct Hstop as [o [c [Hs [Hne ->]]]].
  apply scan_trades_equity_split in Hs. destruct Hs as [Ho Hc].
  apply closed_rows_pnlcomm in Hc. destruct Hc as [_ Hlen].
  rewrite <- Hlen. subst o.
  destruct (filter Trade.isopen (values (record_all ns []))) as [|t opens].
  - reflexivity.
  - destruct c as [|c0 c]; [congruence|].
    unfold TradeRecorder_print, bind, print, modify, get. cbn.
    now rewrite !length_map.
Qed.

Lemma print_after_stop_trades_equity_witness :
  run "trades+equity" [open_trade 1; closed_trade 2 3 5] =
    (Ok tt, fresh "trades+equity"
              (Some [(1, open_trade 1); (2, closed_trade 2 3 5)]) []) /\
  @stop insertion_pandas
    (fresh "trades+equity" (Some [(1, open_trade 1); (2, closed_trade 2 3 5)]) []) =
    (Ok tt, ex_mixed_stopped) /\
  exists d,
    _tradeDict (fresh "trades+equity"
                  (Some [(1, open_trade 1); (2, closed_trade 2 3 5)]) []) = Some d /\
    TradeRecorder_print ex_mixed_stopped =
    match filter Trade.isopen (values d) with
    | [] =>
        (Raise TypeError,
         set_stdout (stdout ex_mixed_stopped ++ [print_header]) ex_mixed_stopped)
    | opens =>
        (Ok tt,
         set_stdout
           (stdout ex_mixed_stopped ++
            [print_header;
             print_open_line (List.length opens);
             print_closed_line
               (List.length (filter (fun t => negb (Trade.isopen t)) (values d)))])
           ex_mixed_stopped)
    end.
Proof.
  split; [reflexivity|]. split; [reflexivity|].
  exact (print_after_stop_trades_equity insertion_pandas
           [open_trade 1; closed_trade 2 3 5] _ ex_mixed_stopped eq_refl eq_refl).
Defined.

Example print_one_open_one_closed :
  stdout (snd (TradeRecorder_print ex_mixed_stopped)) =
  ["TradeRecorder:";
   "  - openTrades = list of length 1";
   "  - closedTrades = list of length 1"]%string.
Proof. reflexivity. Qed.

(** ** traderecorderOLD.py: [stop] and [print] *)

Lemma old_run (ns : list Trade.t) :
  Old.run ns =
  (Ok tt, Old.mkSelf (Old.mkRets [] [] false) (Some (record_all ns [])) []).
Proof.
  unfold Old.run, Old.create_analysis.
  assert (H : forall d,
             Old.notify_all ns (Old.mkSelf (Old.mkRets [] [] false) (Some d) []) =
             (Ok tt, Old.mkSelf (Old.mkRets [] [] false) (Some (record_all ns d)) [])).
  { induction ns as [|n ns IH]; intros d; cbn; [reflexivity|]. apply IH. }
  apply H.
Qed.

Section OldStop.
Variable equityCurve_append : Old.Rets -> result unit * Old.Rets.

(** The body of the loop raises for every closed trade. *)
Lemma old_stop_body_closed (trade : Trade.t) (self : Old.TradeRecorder) :
  Trade.isopen trade = false ->
  exists e self', Old.stop_body equityCurve_append trade self = (Raise e, self').
Proof.
  intros Hopen. unfold Old.stop_body. rewrite Hopen.
  destruct (Trade.exit_price trade) as [p|]; [|now eexists; eexists].
  destruct (Trade.close_datetime trade) as [d|]; [|now eexists; eexists].
  destruct (equityCurve_append _) as [[u|e] o2]; now eexists; eexists.
Qed.

Lemma old_stop_loop_open (l : list Trade.t) :
  forall (os : list Old.OpenRow) (cs : list Old.ClosedRow) (cl : bool)
         (d : option dict) (out : list string),
    forallb Trade.isopen l = true ->
    Old.stop_loop equityCurve_append l (Old.mkSelf (Old.mkRets os cs cl) d out) =
    (Ok tt, Old.mkSelf (Old.mkRets (os ++ map Old.open_row l) cs cl) d out).
Proof.
  induction l as [|t l IH]; intros os cs cl d out Hall.
  - cbn. now rewrite app_nil_r.
  - cbn in Hall. apply andb_true_iff in Hall. destruct Hall as [Ht Hl].
    cbn [Old.stop_loop]. unfold Old.stop_body. rewrite Ht. cbn.
    rewrite IH by assumption. now rewrite <- app_assoc.
Qed.

Lemma old_stop_loop_closed (l : list Trade.t) :
  forall self,
    forallb Trade.isopen l = false ->
    exists e self', Old.stop_loop equityCurve_append l self = (Raise e, self').
Proof.
  induction l as [|t l IH]; intros self Hall; [discriminate|].
  cbn in Hall. cbn [Old.stop_loop].
  destruct (Trade.isopen t) eqn:Ht.
  - cbn in Hall. unfold Old.stop_body. rewrite Ht. now apply IH.
  - destruct (old_stop_body_closed t self Ht) as [e [self' ->]].
    now exists e, self'.
Qed.

End OldStop.



(** X15.  The old version: after a [stop] that returned, [print] gives
    the number of distinct ids notified as the length of [openTrades], and
    0 as the length of [closedTrades]. *)
Theorem old_print_after_stop
    (equityCurve_append : Old.Rets -> result unit * Old.Rets) (ns : list Trade.t)
    (self' : Old.TradeRecorder) :
  Old.stop equityCurve_append (snd (Old.run ns)) = (Ok tt, self') ->
  Old.stdout (snd (Old.TradeRecorder_print self')) =
  [print_header;
   print_open_line (List.length (first_seen (map Trade.tradeid ns)));
   print_closed_line 0].
Proof.
  rewrite old_run. cbn [snd]. unfold Old.stop. cbn [Old._tradeDict]. intros H.
  destruct (forallb Trade.isopen (values (record_all ns []))) eqn:Hall.
  - rewrite old_stop_loop_open in H by assumption.
    inversion H; subst. cbn.
    rewrite length_map. unfold values. rewrite length_map.
    assert (Hk : keys (record_all ns []) = first_seen (map Trade.tradeid ns)).
    { rewrite record_all_keys. cbn [keys map app existsb negb].
      induction (first_seen (map Trade.tradeid ns)) as [|i l IH]; cbn; congruence. }
    rewrite <- Hk. unfold keys. now rewrite length_map.
  - destruct (old_stop_loop_closed equityCurve_append _
                (Old.mkSelf (Old.mkRets [] [] false) (Some (record_all ns [])) [])
                Hall) as [e [s1 Hs]].
    rewrite Hs in H. discriminate.
Qed.

Lemma old_print_after_stop_witness :
  Old.stop (fun o => (Ok tt, o)) (snd (Old.run [open_trade 1; open_trade 2; open_trade 1])) =
    (Ok tt,
     Old.mkSelf
       (Old.mkRets [Old.mkOpen 100 1 0 0 1 None; Old.mkOpen 100 1 0 0 2 None] [] true)
       None []) /\
  Old.stdout (snd (Old.TradeRecorder_print
    (Old.mkSelf
       (Old.mkRets [Old.mkOpen 100 1 0 0 1 None; Old.mkOpen 100 1 0 0 2 None] [] true)
       None []))) =
  [print_header;
   print_open_line
     (List.length (first_seen (map Trade.tradeid [open_trade 1; open_trade 2; open_trade 1])));
   print_closed_line 0].
Proof.
  split; [reflexivity|].
  exact (old_print_after_stop (fun o => (Ok tt, o))
           [open_trade 1; open_trade 2; open_trade 1] _ eq_refl).
Defined.

Example old_stop_closed_trade_raises :
  fst (Old.stop (fun o => (Ok tt, o)) (snd (Old.run [closed_trade 1 2 10]))) =
  Raise TypeError.
Proof. reflexivity. Qed.

(** * The class over Python's Trade objects: proofs *)

(** ** The dict *)

Section PyDict.
Context {num : Type}.

Lemma py_dict_get_set (d : Py.dict num) (k k' : Z) (v : PyTrade.t num) :
  Py.dict_get (Py.dict_set d k v) k' = if k =? k' then Some v else Py.dict_get d k'.
Proof.
  induction d as [|[k0 v0] d IH]; simpl.
  - reflexivity.
  - destruct (Z.eqb_spec k0 k) as [->|Hne]; simpl.
    + destruct (k =? k'); reflexivity.
    + rewrite IH.
      destruct (Z.eqb_spec k0 k') as [->|Hne'].
      * destruct (Z.eqb_spec k k'); [congruence|reflexivity].
      * reflexivity.
Qed.

Lemma py_keys_dict_set_in (d : Py.dict num) (k : Z) (v : PyTrade.t num) :
  In k (Py.keys d) -> Py.keys (Py.dict_set d k v) = Py.keys d.
Proof.
  unfold Py.keys.
  induction d as [|[k0 v0] d IH]; simpl; intros Hin.
  - contradiction.
  - destruct (Z.eqb_spec k0 k) as [->|Hne]; simpl.
    + reflexivity.
    + f_equal. apply IH. destruct Hin; [contradiction|assumption].
Qed.

Lemma py_keys_dict_set_new (d : Py.dict num) (k : Z) (v : PyTrade.t num) :
  ~ In k (Py.keys d) -> Py.keys (Py.dict_set d k v) = Py.keys d ++ [k].
Proof.
  unfold Py.keys.
  induction d as [|[k0 v0] d IH]; simpl; intros Hnin.
  - reflexivity.
  - destruct (Z.eqb_spec k0 k) as [->|Hne]; simpl.
    + exfalso. apply Hnin. now left.
    + f_equal. apply IH. intros H. apply Hnin. now right.
Qed.

Lemma py_NoDup_keys_dict_set (d : Py.dict num) (k : Z) (v : PyTrade.t num) :
  NoDup (Py.keys d) -> NoDup (Py.keys (Py.dict_set d k v)).
Proof.
  intros Hnd.
  destruct (in_dec Z.eq_dec k (Py.keys d)) as [Hin|Hnin].
  - now rewrite py_keys_dict_set_in.
  - rewrite py_keys_dict_set_new by assumption.
    apply NoDup_rev in Hnd.
    rewrite <- (rev_involutive (Py.keys d ++ [k])).
    apply NoDup_rev. rewrite rev_app_distr. simpl.
    constructor; [|assumption].
    now rewrite <- in_rev.
Qed.

Lemma py_keyed_dict_set (d : Py.dict num) (v : PyTrade.t num) :
  Py.keyed d -> Py.keyed (Py.dict_set d (PyTrade.tradeid v) v).
Proof.
  unfold Py.keyed.
  induction 1 as [|[k0 v0] d Hk Hd IH]; simpl.
  - now repeat constructor.
  - destruct (k0 =? PyTrade.tradeid v).
    + now constructor.
    + now constructor.
Qed.

Lemma py_dict_get_In (d : Py.dict num) (k : Z) (v : PyTrade.t num) :
  NoDup (Py.keys d) -> In (k, v) d -> Py.dict_get d k = Some v.
Proof.
  unfold Py.keys.
  induction d as [|[k0 v0] d IH]; simpl; intros Hnd Hin.
  - contradiction.
  - inversion Hnd as [|? ? Hnotin Hnd']; subst.
    destruct Hin as [Heq|Hin].
    + inversion Heq; subst. now rewrite Z.eqb_refl.
    + destruct (Z.eqb_spec k0 k) as [->|Hne].
      * exfalso. apply Hnotin.
        change k with (fst (k, v)). now apply in_map.
      * now apply IH.
Qed.

Lemma py_In_dict_get (d : Py.dict num) (k : Z) (v : PyTrade.t num) :
  Py.dict_get d k = Some v -> In (k, v) d.
Proof.
  induction d as [|[k0 v0] d IH]; simpl; intros H.
  - discriminate.
  - destruct (Z.eqb_spec k0 k) as [->|Hne].
    + left. congruence.
    + right. now apply IH.
Qed.

Lemma py_record_all_lookup (ns : list (PyTrade.t num)) (d : Py.dict num) (id : Z) :
  Py.dict_get (Py.record_all ns d) id =
  match Py.last_recorded ns id with
  | Some t => Some t
  | None => Py.dict_get d id
  end.
Proof.
  revert d.
  induction ns as [|n ns IH]; intros d; simpl.
  - reflexivity.
  - unfold Py.record_all in *. simpl. rewrite IH.
    destruct (Py.last_recorded ns id); [reflexivity|].
    rewrite py_dict_get_set. now destruct (PyTrade.tradeid n =? id).
Qed.

Lemma py_record_all_NoDup (ns : list (PyTrade.t num)) (d : Py.dict num) :
  NoDup (Py.keys d) -> NoDup (Py.keys (Py.record_all ns d)).
Proof.
  revert d.
  induction ns as [|n ns IH]; intros d Hnd; simpl; [assumption|].
  apply IH. now apply py_NoDup_keys_dict_set.
Qed.

Lemma py_record_all_keyed (ns : list (PyTrade.t num)) (d : Py.dict num) :
  Py.keyed d -> Py.keyed (Py.record_all ns d).
Proof.
  revert d.
  induction ns as [|n ns IH]; intros d Hk; simpl; [assumption|].
  apply IH. now apply py_keyed_dict_set.
Qed.

(** Two dicts with the same lookups hold the same entries. *)
Lemma py_same_lookup_perm (d d' : Py.dict num) :
  NoDup (Py.keys d) -> NoDup (Py.keys d') ->
  (forall k, Py.dict_get d k = Py.dict_get d' k) ->
  Permutation d d'.
Proof.
  intros Hnd Hnd' Hget.
  apply NoDup_Permutation.
  - now apply NoDup_map_inv in Hnd.
  - now apply NoDup_map_inv in Hnd'.
  - intros [k v]. split; intros Hin.
    + apply py_In_dict_get. rewrite <- Hget. now apply py_dict_get_In.
    + apply py_In_dict_get. rewrite Hget. now apply py_dict_get_In.
Qed.

(** The Py.values of the Py.dict num of a run are the last notifications. *)
Lemma py_run_values_last (ns : list (PyTrade.t num)) (t : PyTrade.t num) :
  In t (Py.values (Py.record_all ns [])) ->
  Py.last_recorded ns (PyTrade.tradeid t) = Some t.
Proof.
  intros Hin.
  assert (Hk : Py.keyed (Py.record_all ns [])) by (apply py_record_all_keyed; constructor).
  assert (Hnd : NoDup (Py.keys (Py.record_all ns []))) by (apply py_record_all_NoDup; constructor).
  unfold Py.values in Hin. apply in_map_iff in Hin.
  destruct Hin as [[k v] [Hv Hin]]. cbn in Hv. subst v.
  unfold Py.keyed in Hk. rewrite Forall_forall in Hk.
  pose proof (Hk _ Hin) as Hkey. cbn in Hkey. subst k.
  pose proof (py_dict_get_In _ _ _ Hnd Hin) as Hget.
  rewrite py_record_all_lookup in Hget. cbn in Hget.
  now destruct (Py.last_recorded ns (PyTrade.tradeid t)).
Qed.

Lemma py_last_in_run_values (ns : list (PyTrade.t num)) (id : Z) (t : PyTrade.t num) :
  Py.last_recorded ns id = Some t ->
  In t (Py.values (Py.record_all ns [])) /\ PyTrade.tradeid t = id.
Proof.
  intros Hl.
  assert (Hk : Py.keyed (Py.record_all ns [])) by (apply py_record_all_keyed; constructor).
  assert (Hget : Py.dict_get (Py.record_all ns []) id = Some t)
    by (rewrite py_record_all_lookup, Hl; reflexivity).
  apply py_In_dict_get in Hget.
  unfold Py.keyed in Hk. rewrite Forall_forall in Hk.
  pose proof (Hk _ Hget) as Hkey. cbn in Hkey.
  split; [|assumption].
  unfold Py.values. change t with (snd (id, t)). now apply in_map.
Qed.

Lemma py_in_run_values_iff (ns : list (PyTrade.t num)) (t : PyTrade.t num) :
  In t (Py.values (Py.record_all ns [])) <-> exists id, Py.last_recorded ns id = Some t.
Proof.
  split.
  - intros Hin. exists (PyTrade.tradeid t). now apply py_run_values_last.
  - intros [id Hl]. now apply (py_last_in_run_values ns id).
Qed.

End PyDict.

(** ** A run, the loop and [stop] *)

Section PyStop.
Context {num : Type}.

Lemma py_notify_all_fresh (ns : list (PyTrade.t num)) (mode : string)
    (d : Py.dict num) (out : list string) :
  Py.notify_all ns (Py.fresh mode (Some d) out) =
  (Ok tt, Py.fresh mode (Some (Py.record_all ns d)) out).
Proof.
  revert d. induction ns as [|n ns IH]; intros d; cbn; [reflexivity|].
  unfold Py.seq. cbn. apply IH.
Qed.

Lemma py_run_valid (mode : string) (ns : list (PyTrade.t num)) :
  mode_in mode valid_modes = true ->
  Py.run mode ns = (Ok tt, Py.fresh mode (Some (Py.record_all ns [])) []).
Proof.
  intros Hm. unfold Py.run, Py.create_analysis. rewrite Hm. cbn.
  apply py_notify_all_fresh.
Qed.

Lemma py_run_ok_inv (mode : string) (ns : list (PyTrade.t num))
    (self : Py.TradeRecorder num) :
  Py.run mode ns = (Ok tt, self) ->
  mode_in mode valid_modes = true /\
  self = Py.fresh mode (Some (Py.record_all ns [])) [].
Proof.
  intros H. destruct (mode_in mode valid_modes) eqn:Hm.
  - rewrite py_run_valid in H by assumption. split; congruence.
  - unfold Py.run, Py.create_analysis in H. rewrite Hm in H. discriminate.
Qed.

(** The body of the loop is [classify]. *)
Lemma py_stop_body_classify (trade : PyTrade.t num) (mode : string)
    (lo : list (PyRow.t num)) (lc : list (PyClosedRow.t num))
    (e : Value (Z * num)) (cl : bool) (d : option (Py.dict num)) (out : list string) :
  Py.stop_body trade (Py.mkSelf mode (Py.mkRets (PyList lo) (PyList lc) e cl) d out) =
  match Py.classify mode trade with
  | Py.Opens r =>
      (Ok tt, Py.mkSelf mode (Py.mkRets (PyList (lo ++ [r])) (PyList lc) e cl) d out)
  | Py.Closes c =>
      (Ok tt, Py.mkSelf mode (Py.mkRets (PyList lo) (PyList (lc ++ [c])) e cl) d out)
  | Py.Skips =>
      (Ok tt, Py.mkSelf mode (Py.mkRets (PyList lo) (PyList lc) e cl) d out)
  | Py.Fails ex logged =>
      (Raise ex,
       Py.mkSelf mode (Py.mkRets (PyList lo) (PyList lc) e cl) d
                 (if logged then out ++ [missing_attributes_notice] else out))
  end.
Proof.
  unfold Py.stop_body, Py.classify. cbn [Py.p_mode Py.rets].
  destruct (Py.make_row trade) as [row|ex]; [|reflexivity].
  destruct (PyTrade.isopen trade && mode_in mode _); [reflexivity|].
  destruct (mode_in mode _); [|reflexivity].
  destruct (PyTrade.close_datetime trade) as [dt|[]]; try reflexivity.
  destruct (PyTrade.exit_price trade); reflexivity.
Qed.

(** The loop of [stop] is [scan]. *)
Lemma py_stop_loop_scan (l : list (PyTrade.t num)) :
  forall (mode : string) (lo : list (PyRow.t num)) (lc : list (PyClosedRow.t num))
         (e : Value (Z * num)) (cl : bool) (d : option (Py.dict num))
         (out : list string),
    Py.stop_loop l (Py.mkSelf mode (Py.mkRets (PyList lo) (PyList lc) e cl) d out) =
    let '(o, c, f) := Py.scan mode l in
    (match f with Some (ex, _) => Raise ex | None => Ok tt end,
     Py.mkSelf mode (Py.mkRets (PyList (lo ++ o)) (PyList (lc ++ c)) e cl) d
               (match f with
                | Some (_, true) => out ++ [missing_attributes_notice]
                | _ => out
                end)).
Proof.
  induction l as [|trade l IH]; intros mode lo lc e cl d out.
  - cbn. now rewrite !app_nil_r.
  - cbn [Py.stop_loop Py.scan]. unfold Py.seq.
    rewrite py_stop_body_classify.
    destruct (Py.classify mode trade) as [r|c| |ex logged].
    + rewrite IH. destruct (Py.scan mode l) as [[o c] f].
      now rewrite <- app_assoc.
    + rewrite IH. destruct (Py.scan mode l) as [[o c'] f].
      now rewrite <- app_assoc.
    + apply IH.
    + rewrite !app_nil_r. now destruct logged.
Qed.

Context {dtype : Py.Dtype num} {pandas : Py.Pandas num}.

(** [stop] on the object of a run, case by case. *)
Lemma py_stop_fresh (mode : string) (d : Py.dict num) (out : list string) :
  Py.stop (Py.fresh mode (Some d) out) =
  let '(o, c, f) := Py.scan mode (Py.values d) in
  match f with
  | Some (ex, logged) =>
      (Raise ex,
       Py.mkSelf mode (Py.mkRets (PyList o) (PyList c) (PyList []) false) (Some d)
                 (if logged then out ++ [missing_attributes_notice] else out))
  | None =>
      if wants_trades mode then
        if wants_equity mode then
          match c with
          | [] =>
              (Raise TypeError,
               Py.mkSelf mode (Py.mkRets (as_frame o) PyNone (PyList []) false)
                         (Some d) out)
          | _ :: _ =>
              (Ok tt,
               Py.mkSelf mode
                 (Py.mkRets (as_frame o) (DataFrame c)
                    (DataFrame (Py.cumsum (Py.sort_values (Py.equity_columns c))))
                    true)
                 None out)
          end
        else
          (Ok tt,
           Py.mkSelf mode (Py.mkRets (as_frame o) (as_frame c) PyNone true) None out)
      else if wants_equity mode then
        (Raise TypeError,
         Py.mkSelf mode (Py.mkRets PyNone PyNone (PyList []) false) (Some d) out)
      else
        (Ok tt, Py.mkSelf mode (Py.mkRets PyNone PyNone PyNone true) None out)
  end.
Proof.
  unfold Py.stop, Py.fresh. cbn [Py._tradeDict]. unfold Py.seq at 1.
  rewrite py_stop_loop_scan. cbn [app].
  destruct (Py.scan mode (Py.values d)) as [[o c] f].
  destruct f as [[ex logged]|]; [now destruct logged|].
  pose proof (eq_refl : wants_trades mode = mode_in mode _) as Ht.
  pose proof (eq_refl : wants_equity mode = mode_in mode _) as He.
  unfold Py.seq, Py.concat_trades, Py.equity, Py.tear_down, Py.with_rets.
  cbn [Py.p_mode Py.rets Py.openTrades Py.closedTrades Py.equityCurve Py._closed
       Py._tradeDict Py.stdout].
  rewrite <- Ht.
  destruct (wants_trades mode);
    destruct c as [|c0 c]; destruct o as [|o0 o];
    cbn [concat_or_none Py.p_mode Py.rets Py.openTrades Py.closedTrades
         Py.equityCurve Py._closed Py._tradeDict Py.stdout];
    rewrite <- He; destruct (wants_equity mode); reflexivity.
Qed.

End PyStop.

(** ** What the loop does with one trade *)

Section PyLoop.
Context {num : Type}.

Lemma py_make_row_ok_iff (t : PyTrade.t num) :
  (exists r, Py.make_row t = Ok r) <-> py_readable t.
Proof.
  unfold Py.make_row, py_readable.
  destruct (PyTrade.R t), (PyTrade.entry_price t), (PyTrade.open_datetime t);
    split;
    try (intros [r H]; discriminate H);
    try (intros _; split; [discriminate|eexists; reflexivity]);
    try (intros _; eexists; reflexivity);
    try (intros [H [d Hd]]; congruence).
Qed.

Lemma py_make_row_pnlcomm (t : PyTrade.t num) (r : PyRow.t num) :
  Py.make_row t = Ok r ->
  PyRow.pnlcomm r = PyTrade.pnlcomm t /\ PyRow.tradeid r = PyTrade.tradeid t.
Proof.
  unfold Py.make_row.
  destruct (PyTrade.R t), (PyTrade.entry_price t), (PyTrade.open_datetime t);
    intros H; inversion H; subst; split; reflexivity.
Qed.

Lemma py_scan_passes (mode : string) (l : list (PyTrade.t num)) :
  forallb (py_passes mode) l = true ->
  Py.scan mode l = (py_opened mode l, py_closed mode l, None).
Proof.
  unfold py_opened, py_closed.
  induction l as [|t l IH]; cbn [forallb Py.scan flat_map]; [reflexivity|].
  intros H. apply andb_true_iff in H. destruct H as [Ht Hl].
  unfold py_passes in Ht.
  destruct (Py.classify mode t); try discriminate;
    rewrite (IH Hl); reflexivity.
Qed.

Lemma py_scan_fails (mode : string) (l : list (PyTrade.t num)) :
  forallb (py_passes mode) l = false ->
  exists o c e b t,
    Py.scan mode l = (o, c, Some (e, b)) /\
    In t l /\ Py.classify mode t = Py.Fails e b.
Proof.
  induction l as [|t l IH]; cbn [forallb Py.scan]; [discriminate|].
  intros H. apply andb_false_iff in H.
  destruct (Py.classify mode t) as [r|r| |e b] eqn:Hc.
  - destruct H as [H|H]; [unfold py_passes in H; rewrite Hc in H; discriminate|].
    destruct (IH H) as [o [c [e [b [t' [Hs [Hin Hf]]]]]]].
    rewrite Hs. exists (r :: o), c, e, b, t'. repeat split; auto. now right.
  - destruct H as [H|H]; [unfold py_passes in H; rewrite Hc in H; discriminate|].
    destruct (IH H) as [o [c [e [b [t' [Hs [Hin Hf]]]]]]].
    rewrite Hs. exists o, (r :: c), e, b, t'. repeat split; auto. now right.
  - destruct H as [H|H]; [unfold py_passes in H; rewrite Hc in H; discriminate|].
    destruct (IH H) as [o [c [e [b [t' [Hs [Hin Hf]]]]]]].
    rewrite Hs. exists o, c, e, b, t'. repeat split; auto. now right.
  - exists [], [], e, b, t. repeat split; auto. now left.
Qed.

(** The loop comes to its end exactly when its body returns for every
    trade. *)
Lemma py_scan_done_iff (mode : string) (l : list (PyTrade.t num)) :
  (exists o c, Py.scan mode l = (o, c, None)) <-> forallb (py_passes mode) l = true.
Proof.
  split.
  - intros [o [c Hs]]. destruct (forallb (py_passes mode) l) eqn:Hp; [reflexivity|].
    apply py_scan_fails in Hp.
    destruct Hp as [o' [c' [e [b [t [Hs' _]]]]]]. congruence.
  - intros Hp. rewrite (py_scan_passes _ _ Hp). eauto.
Qed.

Lemma py_forallb_perm (f : PyTrade.t num -> bool) (l l' : list (PyTrade.t num)) :
  Permutation l l' -> forallb f l = forallb f l'.
Proof.
  induction 1; cbn; try congruence.
  now rewrite !andb_assoc, (andb_comm (f y)).
Qed.

Lemma py_closed_perm (mode : string) (l l' : list (PyTrade.t num)) :
  Permutation l l' -> Permutation (py_closed mode l) (py_closed mode l').
Proof. intros H. unfold py_closed. now apply Permutation_flat_map. Qed.

(** How the body of the loop fails. *)
Lemma py_classify_fails (mode : string) (t : PyTrade.t num) (e : exn) (b : bool) :
  Py.classify mode t = Py.Fails e b ->
  (b = false /\ Py.make_row t = Raise e) \/
  (b = false /\ e <> AttributeError /\ wants_trades mode = true /\
   PyTrade.close_datetime t = Raise e) \/
  (b = true /\ e = AttributeError /\ wants_trades mode = true /\
   (PyTrade.close_datetime t = Raise AttributeError \/
    (exists d, PyTrade.close_datetime t = Ok d) /\ PyTrade.exit_price t = None)).
Proof.
  unfold Py.classify, wants_trades.
  destruct (Py.make_row t) as [r|e0].
  2:{ intros H. inversion H; subst. now left. }
  destruct (PyTrade.isopen t && mode_in mode _); [discriminate|].
  destruct (mode_in mode _); [|discriminate].
  destruct (PyTrade.close_datetime t) as [d|e0].
  - destruct (PyTrade.exit_price t); [discriminate|].
    intros H. inversion H; subst. right. right. repeat split; auto.
    right. split; [now exists d|reflexivity].
  - destruct e0; intros H; inversion H; subst.
    + right. left. repeat split; auto. discriminate.
    + right. left. repeat split; auto. discriminate.
    + right. right. repeat split; auto.
    + right. left. repeat split; auto. discriminate.
Qed.

(** When the body of the loop returns, mode by mode. *)
Lemma py_exit_some_iff (t : PyTrade.t num) (r : PyRow.t num) :
  match
    match PyTrade.close_datetime t with
    | Raise AttributeError => Py.Fails AttributeError true
    | Raise e => Py.Fails e false
    | Ok d =>
        match PyTrade.exit_price t with
        | None => Py.Fails AttributeError true
        | Some p => Py.Closes (PyClosedRow.mk r d p)
        end
    end
  with
  | Py.Fails _ _ => false
  | _ => true
  end = true <-> py_has_exit t.
Proof.
  unfold py_has_exit.
  destruct (PyTrade.close_datetime t) as [d|[]], (PyTrade.exit_price t);
    split; try discriminate; try reflexivity;
    try (intros _; split; [eexists; reflexivity|discriminate]);
    try (intros [[d' H] H']; congruence).
Qed.

Lemma py_passes_trades (t : PyTrade.t num) :
  py_passes "trades" t = true <-> py_readable t /\ py_has_exit t.
Proof.
  rewrite <- py_make_row_ok_iff. unfold py_passes, Py.classify.
  destruct (Py.make_row t) as [r|e].
  - replace (mode_in "trades" ["trade"; "trades+equity"]%string) with false
      by reflexivity.
    replace (mode_in "trades" ["trades"; "trades+equity"]%string) with true
      by reflexivity.
    rewrite andb_false_r, py_exit_some_iff.
    split; [intros H; split; eauto|intros [_ H]; exact H].
  - split; [discriminate|]. intros [[r H] _]. discriminate.
Qed.

Lemma py_passes_trades_equity (t : PyTrade.t num) :
  py_passes "trades+equity" t = true <->
  py_readable t /\ (PyTrade.isopen t = false -> py_has_exit t).
Proof.
  rewrite <- py_make_row_ok_iff. unfold py_passes, Py.classify.
  destruct (Py.make_row t) as [r|e].
  - replace (mode_in "trades+equity" ["trade"; "trades+equity"]%string) with true
      by reflexivity.
    replace (mode_in "trades+equity" ["trades"; "trades+equity"]%string) with true
      by reflexivity.
    rewrite andb_true_r.
    destruct (PyTrade.isopen t).
    + split; [intros _; split; [eauto|discriminate]|reflexivity].
    + rewrite py_exit_some_iff.
      split; [intros H; split; eauto|intros [_ H]; now apply H].
  - split; [discriminate|]. intros [[r H] _]. discriminate.
Qed.

(** In mode ['trades+equity'] the closed rows are the rows of the closed
    trades, in their order. *)
Lemma py_classify_trades_equity (t : PyTrade.t num) :
  match Py.classify "trades+equity" t with
  | Py.Opens r => PyTrade.isopen t = true
  | Py.Closes c =>
      PyTrade.isopen t = false /\
      PyTrade.close_datetime t = Ok (PyClosedRow.exit_date c) /\
      PyTrade.pnlcomm t = PyRow.pnlcomm (PyClosedRow.base c) /\
      PyTrade.tradeid t = PyRow.tradeid (PyClosedRow.base c)
  | Py.Skips => False
  | Py.Fails _ _ => True
  end.
Proof.
  unfold Py.classify.
  destruct (Py.make_row t) as [r|e] eqn:Hr; [|exact I].
  apply py_make_row_pnlcomm in Hr. destruct Hr as [Hp Hid].
  replace (mode_in "trades+equity" ["trade"; "trades+equity"]%string) with true
    by reflexivity.
  replace (mode_in "trades+equity" ["trades"; "trades+equity"]%string) with true
    by reflexivity.
  rewrite andb_true_r.
  destruct (PyTrade.isopen t); [reflexivity|].
  destruct (PyTrade.close_datetime t) as [d|[]]; try exact I.
  destruct (PyTrade.exit_price t); [|exact I].
  cbn. repeat split; congruence.
Qed.

Lemma py_closed_trades_equity (l : list (PyTrade.t num)) :
  forallb (py_passes "trades+equity") l = true ->
  Forall2 (fun t c =>
             PyTrade.close_datetime t = Ok (PyClosedRow.exit_date c) /\
             PyTrade.pnlcomm t = PyRow.pnlcomm (PyClosedRow.base c) /\
             PyTrade.tradeid t = PyRow.tradeid (PyClosedRow.base c))
          (filter (fun t => negb (PyTrade.isopen t)) l)
          (py_closed "trades+equity" l).
Proof.
  unfold py_closed.
  induction l as [|t l IH]; cbn [forallb filter flat_map]; [constructor|].
  intros H. apply andb_true_iff in H. destruct H as [Ht Hl].
  specialize (IH Hl).
  unfold py_passes in Ht.
  pose proof (py_classify_trades_equity t) as Hc.
  destruct (Py.classify "trades+equity" t) as [r|c| |e b]; try discriminate.
  - rewrite Hc. exact IH.
  - destruct Hc as [Ho Hc]. rewrite Ho. cbn [negb app].
    constructor; [exact Hc|exact IH].
  - contradiction.
Qed.

Lemma py_last_recorded_In (ns : list (PyTrade.t num)) (id : Z) (t : PyTrade.t num) :
  Py.last_recorded ns id = Some t -> In t ns.
Proof.
  induction ns as [|n ns IH]; cbn; [discriminate|].
  destruct (Py.last_recorded ns id).
  - intros H. inversion H; subst. right. now apply IH.
  - destruct (PyTrade.tradeid n =? id); [|discriminate].
    intros H. inversion H; subst. now left.
Qed.

(** The ledgers of two sequences of notifications that end each trade
    alike hold the same trades. *)
Lemma py_same_last_perm (ns ns' : list (PyTrade.t num)) :
  (forall id, Py.last_recorded ns' id = Py.last_recorded ns id) ->
  Permutation (Py.values (Py.record_all ns [])) (Py.values (Py.record_all ns' [])).
Proof.
  intros Hlast. apply Permutation_map, py_same_lookup_perm.
  - apply py_record_all_NoDup. constructor.
  - apply py_record_all_NoDup. constructor.
  - intros k. rewrite !py_record_all_lookup, Hlast. reflexivity.
Qed.

End PyLoop.

(** ** The sort and the cumulative sum *)

Section PyCurve.
Context {num : Type}.

Lemma py_sorted_by_date_map (l : list (Z * num)) :
  StronglySorted Py.by_date l <-> StronglySorted Z.le (map fst l).
Proof.
  induction l as [|a l IH]; cbn [map].
  - split; constructor.
  - split; intros H; inversion H as [|? ? Hs Hf]; subst; constructor.
    + now apply IH.
    + rewrite Forall_map. exact Hf.
    + now apply IH.
    + rewrite Forall_map in Hf. exact Hf.
Qed.

(** A frame has one ascending order when no two rows have the same date. *)
Lemma py_sorted_perm_unique (l : list (Z * num)) :
  forall l', Permutation l l' ->
    StronglySorted Py.by_date l -> StronglySorted Py.by_date l' ->
    NoDup (map fst l) -> l = l'.
Proof.
  induction l as [|a l1 IH]; intros l' Hperm Hs Hs' Hnd.
  - apply Permutation_nil in Hperm. now subst.
  - destruct l' as [|b l2].
    { apply Permutation_sym, Permutation_nil in Hperm. discriminate. }
    inversion Hs as [|? ? Hs1 Hf1]; subst.
    inversion Hs' as [|? ? Hs2 Hf2]; subst.
    cbn [map] in Hnd. inversion Hnd as [|? ? Hnotin Hnd1]; subst.
    assert (Hab : a = b).
    { assert (Ha : In a (b :: l2))
        by (eapply Permutation_in; [exact Hperm|now left]).
      assert (Hb : In b (a :: l1))
        by (eapply Permutation_in; [apply Permutation_sym, Hperm|now left]).
      destruct Ha as [Ha|Ha]; [now symmetry|].
      destruct Hb as [Hb|Hb]; [assumption|].
      rewrite Forall_forall in Hf1, Hf2.
      pose proof (Hf1 _ Hb) as H1. pose proof (Hf2 _ Ha) as H2.
      unfold Py.by_date in H1, H2.
      exfalso. apply Hnotin.
      replace (fst a) with (fst b) by lia. now apply in_map. }
    subst b. f_equal.
    apply IH; try assumption.
    now apply Permutation_cons_inv in Hperm.
Qed.

Lemma py_insert_by_date_perm (x : Z * num) (l : list (Z * num)) :
  Permutation (x :: l) (Py.insert_by_date x l).
Proof.
  induction l as [|y l IH]; cbn; [reflexivity|].
  destruct (fst x <=? fst y); [reflexivity|].
  rewrite perm_swap. now constructor.
Qed.

Lemma py_insert_by_date_sorted (x : Z * num) (l : list (Z * num)) :
  StronglySorted Py.by_date l -> StronglySorted Py.by_date (Py.insert_by_date x l).
Proof.
  induction 1 as [|y l Hs IH Hf]; cbn.
  - repeat constructor.
  - destruct (Z.leb_spec (fst x) (fst y)) as [Hle|Hgt].
    + constructor; [now constructor|].
      constructor; [exact Hle|].
      eapply Forall_impl; [|exact Hf].
      unfold Py.by_date. intros z Hz. lia.
    + constructor; [exact IH|].
      eapply Permutation_Forall; [apply py_insert_by_date_perm|].
      constructor; [unfold Py.by_date; lia|exact Hf].
Qed.

Lemma py_insertion_sort_perm (l : list (Z * num)) :
  Permutation l (Py.insertion_sort l).
Proof.
  induction l as [|x l IH]; cbn; [reflexivity|].
  rewrite <- py_insert_by_date_perm. now constructor.
Qed.

Lemma py_insertion_sort_sorted (l : list (Z * num)) :
  StronglySorted Py.by_date (Py.insertion_sort l).
Proof.
  induction l as [|x l IH]; cbn; [constructor|].
  now apply py_insert_by_date_sorted.
Qed.

Lemma py_insertion_pandas_spec : Py.PandasSpec (@Py.insertion_pandas num).
Proof.
  constructor; cbn.
  - apply py_insertion_sort_perm.
  - apply py_insertion_sort_sorted.
Qed.

Lemma py_firstn_S_nth_error {A} (l : list A) :
  forall k a, nth_error l k = Some a -> firstn (S k) l = firstn k l ++ [a].
Proof.
  induction l as [|x l IH]; intros [|k] a H; cbn in H; try discriminate.
  - inversion H; subst. reflexivity.
  - cbn [firstn app]. f_equal. now apply IH.
Qed.

Lemma py_rev_cons_nth_error {A} (l : list A) (a : A) (r : list A) :
  rev l = a :: r -> nth_error l (List.length r) = Some a /\ List.length l = S (List.length r).
Proof.
  intros H. apply (f_equal (@rev A)) in H. rewrite rev_involutive in H.
  subst l. cbn [rev]. split.
  - rewrite nth_error_app2 by (rewrite length_rev; lia).
    rewrite length_rev, Nat.sub_diag. reflexivity.
  - rewrite length_app, length_rev. cbn. lia.
Qed.

Context {dtype : Py.Dtype num}.

Lemma py_accumulate_length (df : list (Z * num)) :
  forall acc, List.length (Py.accumulate acc df) = List.length df.
Proof.
  induction df as [|[d x] df IH]; intros acc; cbn; [reflexivity|].
  now rewrite IH.
Qed.

Lemma py_accumulate_dates (df : list (Z * num)) :
  forall acc, map fst (Py.accumulate acc df) = map fst df.
Proof.
  induction df as [|[d x] df IH]; intros acc; cbn; [reflexivity|].
  now rewrite IH.
Qed.

Lemma py_cumsum_length (df : list (Z * num)) :
  List.length (Py.cumsum df) = List.length df.
Proof.
  destruct df as [|[d x] df]; cbn; [reflexivity|].
  now rewrite py_accumulate_length.
Qed.

Lemma py_cumsum_dates (df : list (Z * num)) :
  map fst (Py.cumsum df) = map fst df.
Proof.
  destruct df as [|[d x] df]; cbn; [reflexivity|].
  now rewrite py_accumulate_dates.
Qed.

(** A point of the accumulation: the amounts up to it, added one after
    the other to the sum before the first. *)
Lemma py_accumulate_nth (df : list (Z * num)) :
  forall (acc : num) (k : nat) (d : Z) (x : num),
    nth_error df k = Some (d, x) ->
    nth_error (Py.accumulate acc df) k =
    Some (d, if Py.isna x then Py.nan
             else fold_left Py.add
                    (map (fun r => Py.fillna (snd r)) (firstn (S k) df)) acc).
Proof.
  induction df as [|[d0 x0] df IH]; intros acc [|k] d x H; cbn in H;
    try discriminate.
  - inversion H; subst. reflexivity.
  - cbn [Py.accumulate nth_error]. rewrite (IH _ _ _ _ H). reflexivity.
Qed.

(** A point of [cumsum]. *)
Lemma py_cumsum_nth (df : list (Z * num)) (k : nat) :
  (k < List.length df)%nat ->
  option_map snd (nth_error (Py.cumsum df) k) = Py.cumulative (firstn (S k) df).
Proof.
  intros Hk.
  destruct df as [|[d0 x0] df]; [cbn in Hk; lia|].
  destruct k as [|k].
  - cbn. unfold Py.fillna. destruct (Py.isna x0); reflexivity.
  - cbn in Hk.
    destruct (nth_error df k) as [[d x]|] eqn:Hn.
    2:{ apply nth_error_None in Hn. lia. }
    cbn [Py.cumsum nth_error]. rewrite (py_accumulate_nth _ _ _ _ _ Hn).
    unfold Py.cumulative.
    change (firstn (S (S k)) ((d0, x0) :: df)) with ((d0, x0) :: firstn (S k) df).
    cbn [rev]. rewrite (py_firstn_S_nth_error _ _ _ Hn), rev_app_distr.
    cbn [rev app option_map snd].
    destruct (Py.isna x); reflexivity.
Qed.

(** The last point of [cumsum]. *)
Lemma py_cumsum_final (df : list (Z * num)) :
  Py.final_equity (DataFrame (Py.cumsum df)) = Py.cumulative df.
Proof.
  unfold Py.final_equity. cbn [frame_rows].
  destruct (rev (Py.cumsum df)) as [|[d e] r] eqn:Hr.
  - apply (f_equal (@rev _)) in Hr. rewrite rev_involutive in Hr. cbn in Hr.
    pose proof (py_cumsum_length df) as Hl. rewrite Hr in Hl.
    destruct df; [reflexivity|discriminate].
  - apply py_rev_cons_nth_error in Hr. destruct Hr as [Hn Hl].
    rewrite py_cumsum_length in Hl.
    assert (Hk : (List.length r < List.length df)%nat) by lia.
    pose proof (py_cumsum_nth df _ Hk) as H.
    rewrite Hn in H. cbn [option_map snd] in H.
    rewrite <- Hl, firstn_all in H. exact H.
Qed.

Lemma py_cumulative_some (rows : list (Z * num)) :
  rows <> [] -> Py.cumulative rows <> None.
Proof.
  intros Hne. unfold Py.cumulative.
  destruct (rev rows) as [|[d x] r] eqn:Hr.
  - apply (f_equal (@rev _)) in Hr. rewrite rev_involutive in Hr. contradiction.
  - destruct (Py.isna x); [discriminate|].
    destruct rows; [contradiction|]. discriminate.
Qed.

End PyCurve.

(** ** The outcome of [stop] *)

Section PyOutcome.
Context {num : Type} {dtype : Py.Dtype num} {pandas : Py.Pandas num}.

Lemma py_record_all_nil (ns : list (PyTrade.t num)) :
  forall d, Py.record_all ns d = [] -> ns = [] /\ d = [].
Proof.
  induction ns as [|n ns IH]; intros d H; [now split|].
  unfold Py.record_all in H. cbn [fold_left] in H.
  apply IH in H. destruct H as [_ H].
  destruct d as [|[k v] d]; cbn in H; [discriminate|].
  destruct (k =? PyTrade.tradeid n); discriminate.
Qed.

Lemma py_stop_equity_never (d : Py.dict num) (out : list string)
    (self' : Py.TradeRecorder num) :
  Py.stop (Py.fresh "equity" (Some d) out) <> (Ok tt, self').
Proof.
  rewrite py_stop_fresh.
  destruct (Py.scan "equity" (Py.values d)) as [[o c] [[e b]|]];
    [discriminate|].
  replace (wants_trades "equity") with false by reflexivity.
  replace (wants_equity "equity") with true by reflexivity.
  discriminate.
Qed.

Lemma py_stop_trades_iff (d : Py.dict num) (out : list string) :
  (exists self', Py.stop (Py.fresh "trades" (Some d) out) = (Ok tt, self')) <->
  forallb (py_passes "trades") (Py.values d) = true.
Proof.
  rewrite py_stop_fresh, <- py_scan_done_iff.
  destruct (Py.scan "trades" (Py.values d)) as [[o c] [[e b]|]].
  - split; [intros [s H]; discriminate|intros [o' [c' H]]; discriminate].
  - replace (wants_trades "trades") with true by reflexivity.
    replace (wants_equity "trades") with false by reflexivity.
    split; eauto.
Qed.

Lemma py_stop_trades_equity_iff (d : Py.dict num) (out : list string)
    (self' : Py.TradeRecorder num) :
  Py.stop (Py.fresh "trades+equity" (Some d) out) = (Ok tt, self') <->
  forallb (py_passes "trades+equity") (Py.values d) = true /\
  py_closed "trades+equity" (Py.values d) <> [] /\
  self' =
  Py.mkSelf "trades+equity"
    (Py.mkRets (as_frame (py_opened "trades+equity" (Py.values d)))
               (DataFrame (py_closed "trades+equity" (Py.values d)))
               (DataFrame (Py.cumsum (Py.sort_values
                  (Py.equity_columns (py_closed "trades+equity" (Py.values d))))))
               true)
    None out.
Proof.
  rewrite py_stop_fresh.
  replace (wants_trades "trades+equity") with true by reflexivity.
  replace (wants_equity "trades+equity") with true by reflexivity.
  destruct (forallb (py_passes "trades+equity") (Py.values d)) eqn:Hp.
  - rewrite (py_scan_passes _ _ Hp).
    destruct (py_closed "trades+equity" (Py.values d)) as [|c0 c].
    + split; [discriminate|]. intros [_ [H _]]. now contradiction H.
    + split.
      * intros H. inversion H. split; [reflexivity|]. split; [discriminate|reflexivity].
      * intros [_ [_ ->]]. reflexivity.
  - apply py_scan_fails in Hp.
    destruct Hp as [o [c [e [b [t [Hs _]]]]]]. rewrite Hs.
    split; [discriminate|]. intros [H _]. discriminate.
Qed.

(** Some closed row exists exactly when some trade is closed. *)
Lemma py_closed_nonempty_iff (l : list (PyTrade.t num)) :
  forallb (py_passes "trades+equity") l = true ->
  (py_closed "trades+equity" l <> [] <->
   exists t, In t l /\ PyTrade.isopen t = false).
Proof.
  intros Hp. pose proof (py_closed_trades_equity l Hp) as Hf.
  split.
  - intros Hne.
    destruct (filter (fun t => negb (PyTrade.isopen t)) l) as [|t f] eqn:Hfl.
    + inversion Hf as [Hnil|]. now contradiction Hne.
    + assert (Hin : In t (filter (fun t => negb (PyTrade.isopen t)) l))
        by (rewrite Hfl; now left).
      apply filter_In in Hin. destruct Hin as [Hin Ho].
      exists t. split; [assumption|]. now apply negb_true_iff.
  - intros [t [Hin Ho]] Hnil. rewrite Hnil in Hf.
    assert (Hin' : In t (filter (fun t => negb (PyTrade.isopen t)) l)).
    { apply filter_In. split; [assumption|]. now rewrite Ho. }
    inversion Hf as [Hnil'|]. rewrite <- Hnil' in Hin'. contradiction.
Qed.

End PyOutcome.

(** ** C6: the notice for the trades of the public class *)

(** C6, at the trades the notice is written for.  The Trade objects of
    the public Backtrader have neither [entry_price] nor [exit_price].
    When every notification is such a trade, in each of the three modes
    [stop] raises AttributeError and nothing has been printed: the row is
    built from [trade.entry_price] on lines 161 and 171, before the [try]
    of line 197.  The ledger is kept. *)
Theorem public_trade_error_not_logged {num : Type} (dtype : Py.Dtype num)
    (pandas : Py.Pandas num) (t : PyTrade.t num) (rest : list (PyTrade.t num)) :
  Forall (fun mode =>
            fst (Py.run mode (map as_public (t :: rest))) = Ok tt /\
            fst (Py.stop (snd (Py.run mode (map as_public (t :: rest))))) =
              Raise AttributeError /\
            Py.stdout (snd (Py.stop (snd (Py.run mode (map as_public (t :: rest)))))) =
              [] /\
            Py._tradeDict (snd (Py.stop (snd (Py.run mode (map as_public (t :: rest)))))) =
              Py._tradeDict (snd (Py.run mode (map as_public (t :: rest)))))
         valid_modes.
Proof.
  assert (H : forall mode, mode_in mode valid_modes = true ->
            fst (Py.run mode (map as_public (t :: rest))) = Ok tt /\
            fst (Py.stop (snd (Py.run mode (map as_public (t :: rest))))) =
              Raise AttributeError /\
            Py.stdout (snd (Py.stop (snd (Py.run mode (map as_public (t :: rest)))))) =
              [] /\
            Py._tradeDict (snd (Py.stop (snd (Py.run mode (map as_public (t :: rest)))))) =
              Py._tradeDict (snd (Py.run mode (map as_public (t :: rest))))).
  { intros mode Hm. rewrite (py_run_valid mode _ Hm). cbn [fst snd].
    split; [reflexivity|].
    rewrite py_stop_fresh.
    remember (map as_public (t :: rest)) as ns eqn:Hns.
    destruct (Py.values (Py.record_all ns [])) as [|v vs] eqn:Hv.
    { unfold Py.values in Hv. apply map_eq_nil in Hv.
      apply py_record_all_nil in Hv. destruct Hv as [Hv _].
      rewrite Hns in Hv. discriminate. }
    assert (Hin : In v ns).
    { apply (py_last_recorded_In ns (PyTrade.tradeid v)).
      apply py_run_values_last. rewrite Hv. now left. }
    rewrite Hns in Hin. apply in_map_iff in Hin.
    destruct Hin as [t' [Ht' _]].
    assert (Hc : Py.classify mode v = Py.Fails AttributeError false).
    { rewrite <- Ht'. unfold Py.classify, Py.make_row, as_public.
      cbn [PyTrade.R PyTrade.entry_price].
      now destruct (PyTrade.R t'). }
    cbn [Py.scan]. rewrite Hc. cbn. auto. }
  unfold valid_modes. repeat constructor; apply H; reflexivity.
Qed.

(** One closed trade of the public class: AttributeError, and nothing is
    printed. *)
Example public_closed_trade_not_logged :
  @Py.stop Z int64 Py.insertion_pandas
    (snd (Py.run "trades+equity" [public_closed_trade 1])) =
  (Raise AttributeError,
   Py.fresh "trades+equity" (Some [(1, public_closed_trade 1)]) []).
Proof. reflexivity. Qed.

(** The notice is printed for a trade that has [entry_price] and lacks
    [exit_price]. *)
Example exit_price_missing_logged :
  @Py.stop Z int64 Py.insertion_pandas
    (snd (Py.run "trades+equity" [closed_trade_without_exit_price 1])) =
  (Raise AttributeError,
   Py.fresh "trades+equity" (Some [(1, closed_trade_without_exit_price 1)])
            [missing_attributes_notice]).
Proof. reflexivity. Qed.

(** ** X5 and X6: when [stop] returns, and how it fails *)

(** X5.  Whether [stop] returns after a run, mode by mode.  In mode
    ['equity'] it never returns.  In mode ['trades'] it returns exactly
    when the last notification of every trade, open or closed, has
    [entry_price], an [open_datetime()] and a [close_datetime()] that
    return, and [exit_price].  In mode ['trades+equity'] it returns exactly
    when the last notification of every trade has [entry_price] and an
    [open_datetime()] that returns, that of every closed trade also a
    [close_datetime()] that returns and [exit_price], and at least one
    trade is closed. *)
Theorem py_stop_returns_iff {num : Type} (dtype : Py.Dtype num)
    (pandas : Py.Pandas num) (ns : list (PyTrade.t num)) :
  (~ exists self', Py.stop (snd (Py.run "equity" ns)) = (Ok tt, self')) /\
  ((exists self', Py.stop (snd (Py.run "trades" ns)) = (Ok tt, self')) <->
   (forall id t, Py.last_recorded ns id = Some t -> py_readable t /\ py_has_exit t)) /\
  ((exists self', Py.stop (snd (Py.run "trades+equity" ns)) = (Ok tt, self')) <->
   ((forall id t, Py.last_recorded ns id = Some t ->
       py_readable t /\ (PyTrade.isopen t = false -> py_has_exit t)) /\
    (exists id t, Py.last_recorded ns id = Some t /\ PyTrade.isopen t = false))).
Proof.
  split; [|split].
  - rewrite py_run_valid by reflexivity. cbn [snd].
    intros [self' H]. now apply py_stop_equity_never in H.
  - rewrite py_run_valid by reflexivity. cbn [snd].
    rewrite py_stop_trades_iff, forallb_forall. split.
    + intros Hall id t Hl. apply py_passes_trades, Hall.
      apply py_in_run_values_iff. now exists id.
    + intros Hall t Hin. apply py_in_run_values_iff in Hin.
      destruct Hin as [id Hl]. apply py_passes_trades. now apply (Hall id).
  - rewrite py_run_valid by reflexivity. cbn [snd]. split.
    + intros [self' Hstop]. apply py_stop_trades_equity_iff in Hstop.
      destruct Hstop as [Hp [Hne _]]. split.
      * intros id t Hl. apply py_passes_trades_equity.
        rewrite forallb_forall in Hp. apply Hp.
        apply py_in_run_values_iff. now exists id.
      * apply (py_closed_nonempty_iff _ Hp) in Hne.
        destruct Hne as [t [Hin Ho]].
        apply py_in_run_values_iff in Hin. destruct Hin as [id Hl].
        now exists id, t.
    + intros [Hall [id [t [Hl Ho]]]].
      assert (Hp : forallb (py_passes "trades+equity")
                     (Py.values (Py.record_all ns [])) = true).
      { apply forallb_forall. intros t' Hin.
        apply py_in_run_values_iff in Hin. destruct Hin as [id' Hl'].
        apply py_passes_trades_equity. now apply (Hall id'). }
      eexists. apply py_stop_trades_equity_iff.
      split; [exact Hp|]. split; [|reflexivity].
      apply (py_closed_nonempty_iff _ Hp).
      exists t. split; [|assumption].
      apply py_in_run_values_iff. now exists id.
Qed.

(** X6.  How [stop] fails after a run: the ledger is kept, and one of four
    cases holds.  The row of some trade cannot be built ([entry_price] is
    missing or [open_datetime()] raises): that exception leaves [stop] and
    nothing is printed.  Or, in a mode with trades, [close_datetime()] of
    some trade raises an exception other than AttributeError: it leaves
    [stop] and nothing is printed.  Or, in a mode with trades,
    [close_datetime()] raises AttributeError or [exit_price] is missing:
    the notice is printed once and AttributeError leaves [stop].  Or, in a
    mode with equity, TypeError is raised at the equity frame with
    [closedTrades] [None], [equityCurve] still the empty list and nothing
    printed. *)
Theorem py_stop_raises_cases {num : Type} (dtype : Py.Dtype num)
    (pandas : Py.Pandas num) (mode : string) (ns : list (PyTrade.t num))
    (self self' : Py.TradeRecorder num) (e : exn) :
  Py.run mode ns = (Ok tt, self) ->
  Py.stop self = (Raise e, self') ->
  Py._tradeDict self' = Py._tradeDict self /\
  ((Py.stdout self' = [] /\
    exists id t, Py.last_recorded ns id = Some t /\ Py.make_row t = Raise e) \/
   (Py.stdout self' = [] /\
    e <> AttributeError /\
    wants_trades mode = true /\
    exists id t, Py.last_recorded ns id = Some t /\
                 PyTrade.close_datetime t = Raise e) \/
   (Py.stdout self' = [missing_attributes_notice] /\
    e = AttributeError /\
    wants_trades mode = true /\
    exists id t, Py.last_recorded ns id = Some t /\
                 (PyTrade.close_datetime t = Raise AttributeError \/
                  (exists d, PyTrade.close_datetime t = Ok d) /\
                  PyTrade.exit_price t = None)) \/
   (Py.stdout self' = [] /\
    e = TypeError /\
    wants_equity mode = true /\
    Py.closedTrades (Py.rets self') = PyNone /\
    Py.equityCurve (Py.rets self') = PyList [])).
Proof.
  intros Hrun Hstop.
  apply py_run_ok_inv in Hrun. destruct Hrun as [Hm ->].
  rewrite py_stop_fresh in Hstop.
  destruct (forallb (py_passes mode) (Py.values (Py.record_all ns []))) eqn:Hp.
  - rewrite (py_scan_passes _ _ Hp) in Hstop.
    destruct (wants_trades mode), (wants_equity mode); try discriminate.
    + destruct (py_closed mode _) as [|c0 c]; [|discriminate].
      inversion Hstop; subst. cbn. split; [reflexivity|].
      right. right. right. auto.
    + inversion Hstop; subst. cbn. split; [reflexivity|].
      right. right. right. auto.
  - apply py_scan_fails in Hp.
    destruct Hp as [o [c [e' [b [t [Hs [Hin Hc]]]]]]].
    rewrite Hs in Hstop. inversion Hstop; subst. cbn [Py._tradeDict Py.stdout Py.fresh].
    split; [reflexivity|].
    apply py_in_run_values_iff in Hin. destruct Hin as [id Hl].
    apply py_classify_fails in Hc.
    destruct Hc as [[-> Hr]|[[-> [Hne [Hw Hd]]]|[-> [-> [Hw Hd]]]]].
    + left. split; [reflexivity|]. now exists id, t.
    + right. left. repeat split; try assumption. now exists id, t.
    + right. right. left. repeat split; try assumption. now exists id, t.
Qed.

Lemma py_stop_raises_cases_witness :
  Py.run "trades" [modified_open_trade 1] = (Ok tt, py_open_recorder) /\
  @Py.stop Z int64 Py.insertion_pandas py_open_recorder =
    (Raise ValueError, py_open_recorder) /\
  Py._tradeDict py_open_recorder = Py._tradeDict py_open_recorder /\
  ((Py.stdout py_open_recorder = [] /\
    exists id t, Py.last_recorded [modified_open_trade 1] id = Some t /\
                 Py.make_row t = Raise ValueError) \/
   (Py.stdout py_open_recorder = [] /\
    ValueError <> AttributeError /\
    wants_trades "trades" = true /\
    exists id t, Py.last_recorded [modified_open_trade 1] id = Some t /\
                 PyTrade.close_datetime t = Raise ValueError) \/
   (Py.stdout py_open_recorder = [missing_attributes_notice] /\
    ValueError = AttributeError /\
    wants_trades "trades" = true /\
    exists id t, Py.last_recorded [modified_open_trade 1] id = Some t /\
                 (PyTrade.close_datetime t = Raise AttributeError \/
                  (exists d, PyTrade.close_datetime t = Ok d) /\
                  PyTrade.exit_price t = None)) \/
   (Py.stdout py_open_recorder = [] /\
    ValueError = TypeError /\
    wants_equity "trades" = true /\
    Py.closedTrades (Py.rets py_open_recorder) = PyNone /\
    Py.equityCurve (Py.rets py_open_recorder) = PyList [])).
Proof.
  split; [reflexivity|]. split; [reflexivity|].
  exact (py_stop_raises_cases int64 Py.insertion_pandas "trades"
           [modified_open_trade 1] py_open_recorder py_open_recorder ValueError
           eq_refl eq_refl).
Defined.

(** ** X16: the notice *)

(** A closed trade that the loop passes in a mode with trades has its
    exit attributes. *)
Lemma py_passes_closed {num : Type} (mode : string) (t : PyTrade.t num) :
  py_passes mode t = true ->
  wants_trades mode = true ->
  PyTrade.isopen t = false ->
  py_has_exit t.
Proof.
  unfold py_passes, Py.classify, wants_trades. intros Hp Hw Ho.
  destruct (Py.make_row t) as [r|e]; [|discriminate].
  rewrite Ho, Hw in Hp. cbn [andb] in Hp.
  now apply (py_exit_some_iff t r).
Qed.

(** X16.  In a mode with trades, when the row of every trade of the ledger
    can be built and no [close_datetime()] raises anything but
    AttributeError: if the last notification of some closed trade lacks an
    exit attribute ([close_datetime()] raises AttributeError or
    [exit_price] is missing), [stop] prints the notice once and raises
    AttributeError, and the ledger is kept. *)
Theorem py_missing_exit_data_logged {num : Type} (dtype : Py.Dtype num)
    (pandas : Py.Pandas num) (mode : string) (ns : list (PyTrade.t num))
    (self : Py.TradeRecorder num) (id : Z) (t : PyTrade.t num) :
  Py.run mode ns = (Ok tt, self) ->
  wants_trades mode = true ->
  (forall id' t', Py.last_recorded ns id' = Some t' ->
     py_readable t' /\
     forall e, PyTrade.close_datetime t' = Raise e -> e = AttributeError) ->
  Py.last_recorded ns id = Some t ->
  PyTrade.isopen t = false ->
  ~ py_has_exit t ->
  exists self',
    Py.stop self = (Raise AttributeError, self') /\
    Py.stdout self' = [missing_attributes_notice] /\
    Py._tradeDict self' = Py._tradeDict self.
Proof.
  intros Hrun Hw Hall Hl Ho Hmiss.
  apply py_run_ok_inv in Hrun. destruct Hrun as [Hm ->].
  rewrite py_stop_fresh.
  assert (Hp : forallb (py_passes mode) (Py.values (Py.record_all ns [])) = false).
  { destruct (forallb _ _) eqn:Hp; [|reflexivity].
    rewrite forallb_forall in Hp. exfalso. apply Hmiss.
    apply (py_passes_closed mode); try assumption.
    apply Hp. apply py_in_run_values_iff. now exists id. }
  apply py_scan_fails in Hp.
  destruct Hp as [o [c [e [b [t0 [Hs [Hin Hc]]]]]]]. rewrite Hs.
  apply py_in_run_values_iff in Hin. destruct Hin as [id0 Hl0].
  destruct (Hall _ _ Hl0) as [Hr Hd].
  apply py_classify_fails in Hc.
  destruct Hc as [[_ Hrow]|[[_ [Hne [_ Hraise]]]|[-> [-> _]]]].
  - apply py_make_row_ok_iff in Hr. destruct Hr as [r Hr]. congruence.
  - exfalso. apply Hne. now apply Hd.
  - eexists. split; [reflexivity|]. split; reflexivity.
Qed.

Lemma py_missing_exit_data_logged_witness :
  Py.run "trades+equity"
    [modified_closed_trade 1 2 10; closed_trade_without_exit_price 2] =
    (Ok tt,
     Py.fresh "trades+equity"
       (Some [(1, modified_closed_trade 1 2 10);
              (2, closed_trade_without_exit_price 2)]) []) /\
  wants_trades "trades+equity" = true /\
  (forall id' t',
     Py.last_recorded
       [modified_closed_trade 1 2 10; closed_trade_without_exit_price 2] id' =
       Some t' ->
     py_readable t' /\
     forall e, PyTrade.close_datetime t' = Raise e -> e = AttributeError) /\
  Py.last_recorded
    [modified_closed_trade 1 2 10; closed_trade_without_exit_price 2] 2 =
    Some (closed_trade_without_exit_price 2) /\
  PyTrade.isopen (closed_trade_without_exit_price 2) = false /\
  ~ py_has_exit (closed_trade_without_exit_price 2) /\
  exists self',
    @Py.stop Z int64 Py.insertion_pandas
      (Py.fresh "trades+equity"
         (Some [(1, modified_closed_trade 1 2 10);
                (2, closed_trade_without_exit_price 2)]) []) =
      (Raise AttributeError, self') /\
    Py.stdout self' = [missing_attributes_notice] /\
    Py._tradeDict self' =
      Py._tradeDict
        (Py.fresh "trades+equity"
           (Some [(1, modified_closed_trade 1 2 10);
                  (2, closed_trade_without_exit_price 2)]) []).
Proof.
  assert (Hall : forall id' t',
     Py.last_recorded
       [modified_closed_trade 1 2 10; closed_trade_without_exit_price 2] id' =
       Some t' ->
     py_readable t' /\
     forall e, PyTrade.close_datetime t' = Raise e -> e = AttributeError).
  { intros id' t' H.
    cbn [Py.last_recorded PyTrade.tradeid modified_closed_trade
         closed_trade_without_exit_price] in H.
    destruct (2 =? id'); [|destruct (1 =? id'); [|discriminate H]];
      inversion H; subst; (split; [split; [discriminate|eexists; reflexivity]|]);
      intros e He; discriminate He. }
  assert (Hmiss : ~ py_has_exit (closed_trade_without_exit_price 2)).
  { intros [_ H]. now apply H. }
  split; [reflexivity|]. split; [reflexivity|]. split; [exact Hall|].
  split; [reflexivity|]. split; [reflexivity|]. split; [exact Hmiss|].
  exact (py_missing_exit_data_logged int64 Py.insertion_pandas "trades+equity"
           [modified_closed_trade 1 2 10; closed_trade_without_exit_price 2]
           _ 2 (closed_trade_without_exit_price 2)
           eq_refl eq_refl Hall eq_refl eq_refl Hmiss).
Defined.

(** ** X1 and C10: the curve *)

Lemma py_sorted_same_dates {num : Type} (l l' : list (Z * num)) :
  map fst l = map fst l' ->
  StronglySorted Py.by_date l -> StronglySorted Py.by_date l'.
Proof.
  intros Hd Hs. apply py_sorted_by_date_map. rewrite <- Hd.
  now apply py_sorted_by_date_map.
Qed.

(** X1.  In mode ['trades+equity'], when [stop] returns, the curve has one
    point per closed row; its dates are the exit dates in ascending order;
    and the value of the k-th point is the cumulative sum of pandas over the
    first k rows in that order: the amounts added from left to right with
    the addition of the column's dtype, beginning with the first amount, a
    NaN amount counted as zero and giving a NaN point. *)
Theorem py_equity_curve {num : Type} (dtype : Py.Dtype num)
    (pandas : Py.Pandas num) (spec : Py.PandasSpec pandas)
    (ns : list (PyTrade.t num)) (self self' : Py.TradeRecorder num) :
  Py.run "trades+equity" ns = (Ok tt, self) ->
  Py.stop self = (Ok tt, self') ->
  exists closed sorted curve,
    Py.closedTrades (Py.rets self') = DataFrame closed /\
    Py.equityCurve (Py.rets self') = DataFrame curve /\
    Permutation (Py.equity_columns closed) sorted /\
    StronglySorted Py.by_date sorted /\
    List.length curve = List.length closed /\
    map fst curve = map fst sorted /\
    StronglySorted Py.by_date curve /\
    forall k, (k < List.length curve)%nat ->
      option_map snd (nth_error curve k) = Py.cumulative (firstn (S k) sorted).
Proof.
  intros Hrun Hstop.
  apply py_run_ok_inv in Hrun. destruct Hrun as [_ ->].
  apply py_stop_trades_equity_iff in Hstop. destruct Hstop as [_ [_ ->]].
  cbn [Py.rets Py.closedTrades Py.equityCurve].
  set (closed := py_closed "trades+equity" (Py.values (Py.record_all ns []))).
  exists closed, (Py.sort_values (Py.equity_columns closed)),
         (Py.cumsum (Py.sort_values (Py.equity_columns closed))).
  split; [reflexivity|]. split; [reflexivity|].
  split; [apply Py.sort_values_perm|]. split; [apply Py.sort_values_sorted|].
  split; [|split; [|split]].
  - rewrite py_cumsum_length.
    rewrite <- (Permutation_length (Py.sort_values_perm (Py.equity_columns closed))).
    unfold Py.equity_columns. apply length_map.
  - apply py_cumsum_dates.
  - apply (py_sorted_same_dates (Py.sort_values (Py.equity_columns closed))).
    + symmetry. apply py_cumsum_dates.
    + apply Py.sort_values_sorted.
  - intros k Hk. rewrite py_cumsum_length in Hk. now apply py_cumsum_nth.
Qed.

Lemma py_equity_curve_witness :
  Py.run "trades+equity" py_notifications = (Ok tt, py_recorder) /\
  @Py.stop Z int64 Py.insertion_pandas py_recorder = (Ok tt, py_stopped) /\
  exists closed sorted curve,
    Py.closedTrades (Py.rets py_stopped) = DataFrame closed /\
    Py.equityCurve (Py.rets py_stopped) = DataFrame curve /\
    Permutation (Py.equity_columns closed) sorted /\
    StronglySorted Py.by_date sorted /\
    List.length curve = List.length closed /\
    map fst curve = map fst sorted /\
    StronglySorted Py.by_date curve /\
    forall k, (k < List.length curve)%nat ->
      option_map snd (nth_error curve k) =
      @Py.cumulative Z int64 (firstn (S k) sorted).
Proof.
  split; [reflexivity|]. split; [reflexivity|].
  exact (py_equity_curve int64 Py.insertion_pandas py_insertion_pandas_spec
           py_notifications py_recorder py_stopped eq_refl eq_refl).
Defined.

(** C10, as the code has it.  When [stop] returns in a mode with equity,
    the closed rows are those of the closed trades of the ledger, and the
    value of the last point of the curve is their cumulative [pnlcomm]:
    the amounts in ascending order of exit date, added from left to right
    with the addition of the column's dtype (a NaN amount counted as zero,
    and a NaN last amount giving NaN).  For every other sequence of
    notifications in which each id has the same last notification, [stop]
    returns as well, with the same closed rows up to their order; and when
    no two closed rows have the same exit date, with the same curve. *)
Theorem py_curve_order_independent {num : Type} (dtype : Py.Dtype num)
    (pandas : Py.Pandas num) (spec : Py.PandasSpec pandas) (mode : string)
    (ns ns' : list (PyTrade.t num)) (self self' : Py.TradeRecorder num) :
  wants_equity mode = true ->
  Py.run mode ns = (Ok tt, self) ->
  Py.stop self = (Ok tt, self') ->
  (forall id, Py.last_recorded ns' id = Py.last_recorded ns id) ->
  exists d closed sorted,
    Py._tradeDict self = Some d /\
    Py.closedTrades (Py.rets self') = DataFrame closed /\
    Forall2 (fun t c =>
               PyTrade.close_datetime t = Ok (PyClosedRow.exit_date c) /\
               PyTrade.pnlcomm t = PyRow.pnlcomm (PyClosedRow.base c) /\
               PyTrade.tradeid t = PyRow.tradeid (PyClosedRow.base c))
            (filter (fun t => negb (PyTrade.isopen t)) (Py.values d)) closed /\
    Permutation (Py.equity_columns closed) sorted /\
    StronglySorted Py.by_date sorted /\
    Py.final_equity (Py.equityCurve (Py.rets self')) = Py.cumulative sorted /\
    Py.cumulative sorted <> None /\
    exists self2 self2',
      Py.run mode ns' = (Ok tt, self2) /\
      Py.stop self2 = (Ok tt, self2') /\
      Permutation (frame_rows (Py.closedTrades (Py.rets self2'))) closed /\
      (NoDup (map PyClosedRow.exit_date closed) ->
       Py.equityCurve (Py.rets self2') = Py.equityCurve (Py.rets self')).
Proof.
  intros He Hrun Hstop Hlast.
  apply py_run_ok_inv in Hrun. destruct Hrun as [Hm ->].
  assert (Hmode : mode = "trades+equity"%string).
  { destruct (valid_mode_cases mode Hm) as [ -> | [ -> | -> ] ];
      [discriminate He| |reflexivity].
    now apply py_stop_equity_never in Hstop. }
  subst mode.
  apply py_stop_trades_equity_iff in Hstop. destruct Hstop as [Hp [Hne ->]].
  cbn [Py.rets Py.closedTrades Py.equityCurve Py._tradeDict Py.fresh].
  set (d := Py.record_all ns []) in *.
  set (closed := py_closed "trades+equity" (Py.values d)) in *.
  pose proof (Py.sort_values_perm (Py.equity_columns closed)) as Hsp.
  exists d, closed, (Py.sort_values (Py.equity_columns closed)).
  split; [reflexivity|]. split; [reflexivity|].
  split; [now apply py_closed_trades_equity|].
  split; [exact Hsp|]. split; [apply Py.sort_values_sorted|].
  split; [apply py_cumsum_final|].
  split.
  { apply py_cumulative_some. intros Hnil. rewrite Hnil in Hsp.
    apply Permutation_sym, Permutation_nil in Hsp.
    unfold Py.equity_columns in Hsp. apply map_eq_nil in Hsp. contradiction. }
  pose proof (py_same_last_perm ns ns' Hlast) as Hperm. fold d in Hperm.
  set (d' := Py.record_all ns' []) in *.
  set (closed' := py_closed "trades+equity" (Py.values d')).
  assert (Hcp : Permutation closed' closed)
    by (apply Permutation_sym; now apply py_closed_perm).
  exists (Py.fresh "trades+equity" (Some d') []).
  eexists.
  split; [now apply py_run_valid|].
  split.
  { apply py_stop_trades_equity_iff.
    split; [rewrite <- (py_forallb_perm _ _ _ Hperm); exact Hp|].
    split; [|reflexivity].
    fold closed'. intros Hnil. rewrite Hnil in Hcp.
    apply Permutation_nil in Hcp. contradiction. }
  cbn [Py.rets Py.closedTrades Py.equityCurve frame_rows].
  split; [exact Hcp|].
  intros Hnd. fold closed'. f_equal. f_equal.
  apply py_sorted_perm_unique.
  - rewrite <- (Py.sort_values_perm (Py.equity_columns closed')), <- Hsp.
    unfold Py.equity_columns. now apply Permutation_map.
  - apply Py.sort_values_sorted.
  - apply Py.sort_values_sorted.
  - eapply Permutation_NoDup.
    + apply Permutation_map, Py.sort_values_perm.
    + apply (Permutation_NoDup (l := map fst (Py.equity_columns closed))).
      * unfold Py.equity_columns. apply Permutation_map, Permutation_map.
        now apply Permutation_sym.
      * unfold Py.equity_columns. rewrite map_map. cbn [fst].
        eapply Permutation_NoDup; [|exact Hnd].
        apply Permutation_map. now apply Permutation_sym.
Qed.

Lemma py_reordered_last (id : Z) :
  Py.last_recorded py_notifications_reordered id =
  Py.last_recorded py_notifications id.
Proof.
  unfold py_notifications_reordered, py_notifications.
  cbn [Py.last_recorded PyTrade.tradeid modified_closed_trade modified_open_trade].
  destruct (Z.eqb_spec 1 id), (Z.eqb_spec 2 id); try reflexivity; lia.
Qed.

Lemma py_curve_order_independent_witness :
  wants_equity "trades+equity" = true /\
  Py.run "trades+equity" py_notifications = (Ok tt, py_recorder) /\
  @Py.stop Z int64 Py.insertion_pandas py_recorder = (Ok tt, py_stopped) /\
  (forall id, Py.last_recorded py_notifications_reordered id =
              Py.last_recorded py_notifications id) /\
  exists d closed sorted,
    Py._tradeDict py_recorder = Some d /\
    Py.closedTrades (Py.rets py_stopped) = DataFrame closed /\
    Forall2 (fun t c =>
               PyTrade.close_datetime t = Ok (PyClosedRow.exit_date c) /\
               PyTrade.pnlcomm t = PyRow.pnlcomm (PyClosedRow.base c) /\
               PyTrade.tradeid t = PyRow.tradeid (PyClosedRow.base c))
            (filter (fun t => negb (PyTrade.isopen t)) (Py.values d)) closed /\
    Permutation (Py.equity_columns closed) sorted /\
    StronglySorted Py.by_date sorted /\
    Py.final_equity (Py.equityCurve (Py.rets py_stopped)) =
      @Py.cumulative Z int64 sorted /\
    @Py.cumulative Z int64 sorted <> None /\
    exists self2 self2',
      Py.run "trades+equity" py_notifications_reordered = (Ok tt, self2) /\
      @Py.stop Z int64 Py.insertion_pandas self2 = (Ok tt, self2') /\
      Permutation (frame_rows (Py.closedTrades (Py.rets self2'))) closed /\
      (NoDup (map PyClosedRow.exit_date closed) ->
       Py.equityCurve (Py.rets self2') = Py.equityCurve (Py.rets py_stopped)).
Proof.
  split; [reflexivity|]. split; [reflexivity|]. split; [reflexivity|].
  split; [exact py_reordered_last|].
  exact (py_curve_order_independent int64 Py.insertion_pandas
           py_insertion_pandas_spec "trades+equity"
           py_notifications py_notifications_reordered py_recorder py_stopped
           eq_refl eq_refl eq_refl py_reordered_last).
Defined.

(** C10 as stated fails, in two ways.  Exchanging the two notifications of
    trade 1 is a permutation, [stop] returns for both orders, and the last
    point of the curve is 15 for one and 5 for the other (trade 1 ends
    open).  And with each trade notified once: three trades closed at the
    same time with the float amounts 1e16, -1e16 and 1, under a sort that
    keeps rows of equal date in their order; [stop] returns for both
    orders, and the last point is 1.0 for one and 0.0 for the other. *)
Lemma py_final_equity_permutation_counterexample :
  (Permutation py_notifications py_notifications_swapped /\
   fst (@Py.stop Z int64 Py.insertion_pandas
          (snd (Py.run "trades+equity" py_notifications))) = Ok tt /\
   fst (@Py.stop Z int64 Py.insertion_pandas
          (snd (Py.run "trades+equity" py_notifications_swapped))) = Ok tt /\
   Py.final_equity (Py.equityCurve (Py.rets (snd (@Py.stop Z int64 Py.insertion_pandas
     (snd (Py.run "trades+equity" py_notifications)))))) = Some 15 /\
   Py.final_equity (Py.equityCurve (Py.rets (snd (@Py.stop Z int64 Py.insertion_pandas
     (snd (Py.run "trades+equity" py_notifications_swapped)))))) = Some 5) /\
  (Permutation float_notifications float_notifications_rotated /\
   Py.PandasSpec (@Py.insertion_pandas float) /\
   fst (@Py.stop float float64 Py.insertion_pandas
          (snd (Py.run "trades+equity" float_notifications))) = Ok tt /\
   fst (@Py.stop float float64 Py.insertion_pandas
          (snd (Py.run "trades+equity" float_notifications_rotated))) = Ok tt /\
   Py.final_equity (Py.equityCurve (Py.rets (snd (@Py.stop float float64
     Py.insertion_pandas (snd (Py.run "trades+equity" float_notifications)))))) =
     Some 1%float /\
   Py.final_equity (Py.equityCurve (Py.rets (snd (@Py.stop float float64
     Py.insertion_pandas
     (snd (Py.run "trades+equity" float_notifications_rotated)))))) =
     Some 0%float).
Proof.
  split.
  - split; [apply perm_swap|]. repeat split; reflexivity.
  - split.
    { unfold float_notifications, float_notifications_rotated.
      exact (Permutation_cons_append
               [float_closed_trade 2 2 (-1e16)%float; float_closed_trade 3 2 1%float]
               (float_closed_trade 1 2 1e16%float)). }
    split; [exact py_insertion_pandas_spec|].
    repeat split; vm_compute; reflexivity.
Qed.

(** ** The curve at work *)

Example py_reordered_curve :
  Py.equityCurve (Py.rets (snd (@Py.stop Z int64 Py.insertion_pandas
    (snd (Py.run "trades+equity" py_notifications_reordered))))) =
  DataFrame [(2, 10); (3, 15)].
Proof. reflexivity. Qed.

(** An int64 column wraps around. *)
Example int64_curve_wraps :
  Py.equityCurve (Py.rets (snd (@Py.stop Z int64 Py.insertion_pandas
    (snd (Py.run "trades+equity"
            [modified_closed_trade 1 2 (2 ^ 62); modified_closed_trade 2 3 (2 ^ 62)]))))) =
  DataFrame [(2, 2 ^ 62); (3, - 2 ^ 63)].
Proof. vm_compute. reflexivity. Qed.

(** A NaN amount gives a NaN point and is left out of the points after
    it. *)
Example float64_curve_skips_nan :
  Py.equityCurve (Py.rets (snd (@Py.stop float float64 Py.insertion_pandas
    (snd (Py.run "trades+equity"
            [float_closed_trade 1 1 1%float;
             float_closed_trade 2 2 PrimFloat.nan;
             float_closed_trade 3 3 2%float]))))) =
  DataFrame [(1, 1%float); (2, PrimFloat.nan); (3, 3%float)].
Proof. vm_compute. reflexivity. Qed.
